(** * WLED device model: a shallow embedding of [wled/models.py]

    The module decodes the JSON status document of a WLED controller into
    dataclasses.  The embedding keeps the dynamic typing of the source: a
    payload is a Python value as [json.loads] builds it, a dataclass field
    holds whatever value the decoder put there, and an operation that
    Python refuses on a value raises the exception Python raises. *)

From Stdlib Require Import ZArith Ascii String OrderedTypeEx.
From stdpp Require Import base tactics option list sorting strings.

Local Open Scope Z_scope.
Local Open Scope string_scope.

(** ** Python values *)

(** The values a decoded JSON document is made of, and the tuples the
    segment decoder builds from them.  Numbers are the integers of the WLED
    API (Python integers are unbounded, hence [Z]); the floats that JSON
    also allows are not modelled.  A string is the
    sequence of its characters.  A dict keeps its items in insertion order,
    as Python does; its keys are strings and are pairwise distinct, and
    [dict_lookup] reads the first binding of a key. *)
#[warnings="-register-all"]
Inductive pyval : Type :=
  | PNone
  | PBool (b : bool)
  | PInt (z : Z)
  | PStr (s : string)
  | PList (l : list pyval)
  | PTuple (l : list pyval)
  | PDict (d : list (string * pyval)).

Abbreviation dict := (list (string * pyval)).

(** The exceptions that the module can let escape. *)
Inductive exn : Type :=
  | KeyError (k : pyval)
  | IndexError
  | TypeError
  | AttributeError
  | WLEDError (msg : string).

Inductive res (A : Type) : Type :=
  | Ok (a : A)
  | Raise (e : exn).
Arguments Ok {A} a.
Arguments Raise {A} e.

Definition res_bind {A B} (m : res A) (k : A → res B) : res B :=
  match m with
  | Ok a => k a
  | Raise e => Raise e
  end.

#[global] Instance res_ret : MRet res := fun _ a => Ok a.
#[global] Instance res_mbind : MBind res := fun _ _ k m => res_bind m k.

Definition is_ok {A} (r : res A) : bool :=
  match r with Ok _ => true | Raise _ => false end.

(** [bool(v)]: Python truthiness. *)
Definition truthy (v : pyval) : bool :=
  match v with
  | PNone => false
  | PBool b => b
  | PInt z => negb (Z.eqb z 0)
  | PStr s => negb (String.eqb s "")
  | PList l | PTuple l => match l with [] => false | _ => true end
  | PDict d => match d with [] => false | _ => true end
  end.

(** A [bool] is an [int] in Python: the integer a numeric value stands for. *)
Definition as_int (v : pyval) : option Z :=
  match v with
  | PInt z => Some z
  | PBool b => Some (if b then 1 else 0)
  | _ => None
  end.

(** [n == v] for an integer [n]. *)
Definition int_eq (n : Z) (v : pyval) : bool :=
  match as_int v with
  | Some z => Z.eqb n z
  | None => false
  end.

(** [a - b]. *)
Definition py_sub (a b : pyval) : res pyval :=
  match as_int a, as_int b with
  | Some x, Some y => Ok (PInt (x - y))
  | _, _ => Raise TypeError
  end.

(** [a < b], as [list.sort] asks it of two keys.  Strings compare by
    character code, numbers by value; [None] and dicts do not compare, nor
    does a string with a number.  Sequences used as sort keys are outside
    the model and are refused as well. *)
Definition py_lt (a b : pyval) : res bool :=
  match a, b with
  | PStr s, PStr t => Ok (String.ltb s t)
  | _, _ =>
    match as_int a, as_int b with
    | Some x, Some y => Ok (Z.ltb x y)
    | _, _ => Raise TypeError
    end
  end.

Fixpoint chars (s : string) : list pyval :=
  match s with
  | EmptyString => []
  | String c s' => PStr (String c EmptyString) :: chars s'
  end.

(** [iter(v)]: the items a [for] loop, [enumerate] or [tuple] draws. *)
Definition py_iter (v : pyval) : res (list pyval) :=
  match v with
  | PList l | PTuple l => Ok l
  | PStr s => Ok (chars s)
  | PDict d => Ok (map (fun kv => PStr (fst kv)) d)
  | PNone | PBool _ | PInt _ => Raise TypeError
  end.

(** [tuple(v)]. *)
Definition py_tuple (v : pyval) : res pyval :=
  l ← py_iter v; Ok (PTuple l).

(** [s.replace(old, new)] for one-character [old] and [new]. *)
Fixpoint replace_char (old new : ascii) (s : string) : string :=
  match s with
  | EmptyString => EmptyString
  | String c s' =>
    String (if Ascii.eqb c old then new else c) (replace_char old new s')
  end.

(** ** Dicts *)

Fixpoint dict_lookup (k : string) (d : dict) : option pyval :=
  match d with
  | [] => None
  | (k', v) :: d' => if String.eqb k k' then Some v else dict_lookup k d'
  end.

(** [k in d] *)
Definition contains (k : string) (d : dict) : bool :=
  match dict_lookup k d with Some _ => true | None => false end.

(** [d.get(k, dflt)] *)
Definition get (k : string) (dflt : pyval) (d : dict) : pyval :=
  match dict_lookup k d with Some v => v | None => dflt end.

(** [d[k]] *)
Definition subscript (d : dict) (k : string) : res pyval :=
  match dict_lookup k d with
  | Some v => Ok v
  | None => Raise (KeyError (PStr k))
  end.

(** The dict after the object bound to [k] has changed to [v]: the binding
    keeps its place. *)
Fixpoint dict_store (k : string) (v : pyval) (d : dict) : dict :=
  match d with
  | [] => [(k, v)]
  | (k', v') :: d' =>
    if String.eqb k k' then (k, v) :: d' else (k', v') :: dict_store k v d'
  end.

(** [o.get(k, dflt)] on a value that need not be a dict: every other
    value of the model has no attribute [get]. *)
Definition py_get (o : pyval) (k : string) (dflt : pyval) : res pyval :=
  match o with
  | PDict d => Ok (get k dflt d)
  | _ => Raise AttributeError
  end.

(** ** Value objects *)

Module Nightlight.

Record t : Type := mk
  { duration : pyval;
    fade : pyval;
    on : pyval;
    target_brightness : pyval }.

Definition from_dict (data : dict) : res t :=
  let nightlight := get "nl" (PDict []) data in
  dur ← py_get nightlight "dur" (PInt 1);
  fd ← py_get nightlight "fade" (PBool false);
  o ← py_get nightlight "on" (PBool false);
  tbri ← py_get nightlight "tbri" (PInt 0);
  Ok (mk dur fd o tbri).

End Nightlight.

Module Sync.

Record t : Type := mk
  { receive : pyval;
    send : pyval }.

Definition from_dict (data : dict) : res t :=
  let sync := get "udpn" (PDict []) data in
  s ← py_get sync "send" (PBool false);
  r ← py_get sync "recv" (PBool false);
  Ok {| send := s; receive := r |}.

End Sync.

Module Effect.

Record t : Type := mk
  { effect_id : Z;
    name : pyval }.

End Effect.

Module Palette.

Record t : Type := mk
  { name : pyval;
    palette_id : Z }.

End Palette.

Module Leds.

Record t : Type := mk
  { count : pyval;
    fps : pyval;
    max_power : pyval;
    max_segments : pyval;
    pin : pyval;
    power : pyval;
    rgbw : pyval;
    wv : pyval }.

Definition from_dict (data : dict) : res t :=
  let leds := get "leds" (PDict []) data in
  c ← py_get leds "count" (PInt 0);
  f ← py_get leds "fps" PNone;
  mp ← py_get leds "maxpwr" (PInt 0);
  ms ← py_get leds "maxseg" (PInt 0);
  pn ← py_get leds "pin" (PInt 0);
  pw ← py_get leds "pwr" (PInt 0);
  rg ← py_get leds "rgbw" (PBool false);
  w ← py_get leds "wv" (PBool true);
  Ok (mk c f mp ms pn pw rg w).

End Leds.

Module Wifi.

Record t : Type := mk
  { bssid : pyval;
    channel : pyval;
    rssi : pyval;
    signal : pyval }.

(** The result is [Wifi | None]: [Ok None] is the [return None]. *)
Definition from_dict (data : dict) : res (option t) :=
  if negb (contains "wifi" data) then Ok None
  else
    let wifi := get "wifi" (PDict []) data in
    b ← py_get wifi "bssid" (PStr "00:00:00:00:00:00");
    c ← py_get wifi "channel" (PInt 0);
    r ← py_get wifi "rssi" (PInt 0);
    s ← py_get wifi "signal" (PInt 0);
    Ok (Some (mk b c r s)).

End Wifi.

Module Info.

Record t : Type := mk
  { architecture : pyval;
    arduino_core_version : pyval;
    brand : pyval;
    build_type : pyval;
    effect_count : pyval;
    free_heap : pyval;
    leds : Leds.t;
    live_ip : pyval;
    live_mode : pyval;
    live : pyval;
    mac_address : pyval;
    name : pyval;
    pallet_count : pyval;
    product : pyval;
    udp_port : pyval;
    uptime : pyval;
    version_id : pyval;
    version : pyval;
    websocket : pyval;
    wifi : option Wifi.t }.

(** [v.replace("_", ".")]: only a string has the method. *)
Definition replace_underscores (v : pyval) : res pyval :=
  match v with
  | PStr s => Ok (PStr (replace_char "_" "." s))
  | _ => Raise AttributeError
  end.

Definition from_dict (data : dict) : res t :=
  let websocket := get "ws" PNone data in
  let websocket := if int_eq (-1) websocket then PNone else websocket in
  core ← replace_underscores (get "core" (PStr "Unknown") data);
  lds ← Leds.from_dict data;
  wf ← Wifi.from_dict data;
  Ok {| architecture := get "arch" (PStr "Unknown") data;
        arduino_core_version := core;
        brand := get "brand" (PStr "WLED") data;
        build_type := get "btype" (PStr "Unknown") data;
        effect_count := get "fxcount" (PInt 0) data;
        free_heap := get "freeheap" (PInt 0) data;
        leds := lds;
        live_ip := get "lip" (PStr "Unknown") data;
        live_mode := get "lm" (PStr "Unknown") data;
        live := get "live" (PBool false) data;
        mac_address := get "mac" (PStr "") data;
        name := get "name" (PStr "WLED Light") data;
        pallet_count := get "palcount" (PInt 0) data;
        product := get "product" (PStr "DIY Light") data;
        udp_port := get "udpport" (PInt 0) data;
        uptime := get "uptime" (PInt 0) data;
        version_id := get "vid" (PStr "Unknown") data;
        version := get "ver" (PStr "Unknown") data;
        websocket := websocket;
        wifi := wf |}.

End Info.

(** ** Segments *)

(** [colors.pop(0)]: the outcome and the object afterwards.  A list loses
    its first item; a dict has no key [0]; nothing else has a [pop]. *)
Definition py_pop0 (colors : pyval) : res pyval * pyval :=
  match colors with
  | PList [] => (Raise IndexError, colors)
  | PList (c :: rest) => (Ok c, PList rest)
  | PDict _ => (Raise (KeyError (PInt 0)), colors)
  | _ => (Raise AttributeError, colors)
  end.

Module Segment.

Record t : Type := mk
  { brightness : pyval;
    clones : pyval;
    color_primary : pyval;
    color_secondary : pyval;
    color_tertiary : pyval;
    effect : Effect.t;
    intensity : pyval;
    length : pyval;
    on : pyval;
    palette : Palette.t;
    reverse : pyval;
    segment_id : Z;
    selected : pyval;
    speed : pyval;
    start : pyval;
    stop : pyval }.

(** The local variables the [try] block reads and assigns.  [colors] is
    the list object itself: what is popped from it is gone from the
    payload too. *)
Record locals : Type := Locals
  { colors : pyval;
    primary_color : pyval;
    secondary_color : pyval;
    tertiary_color : pyval }.

(** [tuple(colors.pop(0))]: the pop has happened when [tuple] raises. *)
Definition pop_tuple (f : locals) : res pyval * locals :=
  let '(r, colors') := py_pop0 (colors f) in
  (c ← r; py_tuple c,
   Locals colors' (primary_color f) (secondary_color f) (tertiary_color f)).

(** The body of the [try]: three assignments in a row, left at the first
    one that raises. *)
Definition try_body (f : locals) : res unit * locals :=
  match pop_tuple f with
  | (Raise e, f) => (Raise e, f)
  | (Ok c, f) =>
    let f := Locals (colors f) c (secondary_color f) (tertiary_color f) in
    match pop_tuple f with
    | (Raise e, f) => (Raise e, f)
    | (Ok c, f) =>
      let f := Locals (colors f) (primary_color f) c (tertiary_color f) in
      match pop_tuple f with
      | (Raise e, f) => (Raise e, f)
      | (Ok c, f) =>
        (Ok (), Locals (colors f) (primary_color f) (secondary_color f) c)
      end
    end
  end.

(** [try: ... except IndexError: pass] *)
Definition try_except_IndexError (f : locals) : res unit * locals :=
  match try_body f with
  | (Raise IndexError, f) => (Ok (), f)
  | out => out
  end.

(** [next((item for item in items if p(item)), dflt)] *)
Definition next {A} (p : A → bool) (items : list A) (dflt : A) : A :=
  match find p items with Some item => item | None => dflt end.

(** Returns the outcome and the payload as the call leaves it. *)
Definition from_dict (segment_id : Z) (data : dict)
    (effects : list Effect.t) (palettes : list Palette.t)
    (state_on state_brightness : pyval) : res t * dict :=
  let start := get "start" (PInt 0) data in
  let stop := get "stop" (PInt 0) data in
  match py_sub stop start with
  | Raise e => (Raise e, data)
  | Ok difference =>
    let length := get "len" difference data in
    let '(r, f) :=
      try_except_IndexError
        (* primary_color, secondary_color, tertiary_color = (0, 0, 0) *)
        (Locals (get "col" (PList []) data) (PInt 0) (PInt 0) (PInt 0)) in
    let data :=
      if contains "col" data then dict_store "col" (colors f) data
      else data in
    match r with
    | Raise e => (Raise e, data)
    | Ok _ =>
      let effect :=
        next (fun item => int_eq (Effect.effect_id item) (get "fx" (PInt 0) data))
          effects (Effect.mk 0 (PStr "Unknown")) in
      let palette :=
        next (fun item => int_eq (Palette.palette_id item) (get "pal" (PInt 0) data))
          palettes {| Palette.palette_id := 0; Palette.name := PStr "Unknown" |} in
      (Ok {| brightness := get "bri" state_brightness data;
             clones := get "cln" (PInt (-1)) data;
             color_primary := primary_color f;
             color_secondary := secondary_color f;
             color_tertiary := tertiary_color f;
             effect := effect;
             intensity := get "ix" (PInt 0) data;
             length := length;
             on := get "on" state_on data;
             palette := palette;
             reverse := get "reverse" (PBool false) data;
             segment_id := segment_id;
             selected := get "sel" (PBool false) data;
             speed := get "sx" (PInt 0) data;
             start := start;
             stop := stop |}, data)
    end
  end.

End Segment.

(** ** State *)

Module State.

Record t : Type := mk
  { brightness : pyval;
    nightlight : Nightlight.t;
    on : pyval;
    playlist : pyval;
    preset : pyval;
    segments : list Segment.t;
    sync : Sync.t;
    transition : pyval }.

Definition playlist_active (self : t) : bool := int_eq (-1) (playlist self).

Definition preset_active (self : t) : bool := int_eq (-1) (preset self).

(** The list comprehension over [enumerate(...)]: one segment decode per
    item, in order, stopping at the first that raises.  Returns the items
    as the decodes leave them.  An item that is no dict fails at its
    first [data.get]. *)
Fixpoint decode_segments (segment_id : Z) (items : list pyval)
    (effects : list Effect.t) (palettes : list Palette.t)
    (on brightness : pyval) : res (list Segment.t) * list pyval :=
  match items with
  | [] => (Ok [], [])
  | PDict segment :: rest =>
    match Segment.from_dict segment_id segment effects palettes on brightness with
    | (Raise e, segment) => (Raise e, PDict segment :: rest)
    | (Ok s, segment) =>
      let '(r, rest) :=
        decode_segments (segment_id + 1) rest effects palettes on brightness in
      (ss ← r; Ok (s :: ss), PDict segment :: rest)
    end
  | _ :: _ => (Raise AttributeError, items)
  end.

(** The sequence object after its items were worked on: a string or a
    dict hands out fresh key and character strings, a list its own
    items. *)
Definition with_items (v : pyval) (items : list pyval) : pyval :=
  match v with
  | PList _ => PList items
  | PTuple _ => PTuple items
  | _ => v
  end.

(** Returns the outcome and the payload as the call leaves it. *)
Definition from_dict (data : dict)
    (effects : list Effect.t) (palettes : list Palette.t) : res t * dict :=
  let brightness := get "bri" (PInt 1) data in
  let on := get "on" (PBool false) data in
  let seg := get "seg" (PList []) data in
  match py_iter seg with
  | Raise e => (Raise e, data)
  | Ok items =>
    let '(r, items) := decode_segments 0 items effects palettes on brightness in
    let data :=
      if contains "seg" data then dict_store "seg" (with_items seg items) data
      else data in
    (segments ← r;
     nl ← Nightlight.from_dict data;
     sy ← Sync.from_dict data;
     Ok {| brightness := brightness;
           nightlight := nl;
           on := on;
           playlist := get "pl" (PInt (-1)) data;
           preset := get "ps" (PInt (-1)) data;
           segments := segments;
           sync := sy;
           transition := get "transition" (PInt 0) data |},
     data)
  end.

End State.

(** ** Device *)

(** [enumerate(l)] *)
Definition enumerate {A} (l : list A) : list (Z * A) :=
  imap (fun i x => (Z.of_nat i, x)) l.

(** [l.sort(key=key)].  The sort is stable: items with equal keys keep
    their order.  It raises when a comparison of two keys does. *)
Section sort.
Context {A : Type} (key : A → pyval).

Fixpoint insert (x : A) (l : list A) : res (list A) :=
  match l with
  | [] => Ok [x]
  | y :: l' =>
    b ← py_lt (key y) (key x);
    if b : bool then l'' ← insert x l'; Ok (y :: l'') else Ok (x :: l)
  end.

Fixpoint sort (l : list A) : res (list A) :=
  match l with
  | [] => Ok []
  | x :: l' => s ← sort l'; insert x s
  end.
End sort.

Module Device.

(** The attributes set on the instance.  The class itself binds
    [effects] and [palettes] to an empty list and only annotates [info]
    and [state]. *)
Record t : Type := mk
  { effects : option (list Effect.t);
    info : option Info.t;
    palettes : option (list Palette.t);
    state : option State.t }.

(** A fresh instance, before [__init__] runs. *)
Definition new : t := mk None None None None.

(** [self.effects], [self.palettes], [self.info], [self.state] *)
Definition get_effects (self : t) : list Effect.t :=
  match effects self with Some l => l | None => [] end.

Definition get_palettes (self : t) : list Palette.t :=
  match palettes self with Some l => l | None => [] end.

Definition get_info (self : t) : res Info.t :=
  match info self with Some i => Ok i | None => Raise AttributeError end.

Definition get_state (self : t) : res State.t :=
  match state self with Some s => Ok s | None => Raise AttributeError end.

Definition build_effects (_effects : pyval) : res (list Effect.t) :=
  items ← py_iter _effects;
  sort Effect.name
    (map (fun '(effect_id, effect) => Effect.mk effect_id effect)
       (enumerate items)).

Definition build_palettes (_palettes : pyval) : res (list Palette.t) :=
  items ← py_iter _palettes;
  sort Palette.name
    (map (fun '(palette_id, palette) =>
            {| Palette.palette_id := palette_id; Palette.name := palette |})
       (enumerate items)).

(** [Info.from_dict(_info)] and [State.from_dict(_state, ...)] on a value
    that need not be a dict: both start with a [data.get]. *)
Definition decode_info (_info : pyval) : res Info.t :=
  match _info with
  | PDict d => Info.from_dict d
  | _ => Raise AttributeError
  end.

Definition decode_state (_state : pyval)
    (effects : list Effect.t) (palettes : list Palette.t)
  : res State.t * pyval :=
  match _state with
  | PDict d =>
    let '(r, d) := State.from_dict d effects palettes in (r, PDict d)
  | _ => (Raise AttributeError, _state)
  end.

(** Returns the outcome, the instance and the payload as the call leaves
    them; on [Ok] the method returns [self]. *)
Definition update_from_dict (self : t) (data : dict) : res unit * t * dict :=
  let _effects := get "effects" PNone data in
  match (if truthy _effects
         then effects ← build_effects _effects;
              Ok (mk (Some effects) (info self) (palettes self) (state self))
         else Ok self) with
  | Raise e => (Raise e, self, data)
  | Ok self =>
  let _palettes := get "palettes" PNone data in
  match (if truthy _palettes
         then palettes ← build_palettes _palettes;
              Ok (mk (effects self) (info self) (Some palettes) (state self))
         else Ok self) with
  | Raise e => (Raise e, self, data)
  | Ok self =>
  let _info := get "info" PNone data in
  match (if truthy _info
         then info ← decode_info _info;
              Ok (mk (effects self) (Some info) (palettes self) (state self))
         else Ok self) with
  | Raise e => (Raise e, self, data)
  | Ok self =>
  let _state := get "state" PNone data in
  if truthy _state
  then
    let '(r, _state) :=
      decode_state _state (get_effects self) (get_palettes self) in
    let data := dict_store "state" _state data in
    match r with
    | Raise e => (Raise e, self, data)
    | Ok state =>
      (Ok (), mk (effects self) (info self) (palettes self) (Some state), data)
    end
  else (Ok (), self, data)
  end end end.

Definition required : list string := ["effects"; "palettes"; "info"; "state"].

(** [any(k not in data and data[k] is not None for k in ks)] *)
Fixpoint any_incomplete (ks : list string) (data : dict) : res bool :=
  match ks with
  | [] => Ok false
  | k :: ks' =>
    b ← (if negb (contains k data)
         then v ← subscript data k;
              Ok (negb (match v with PNone => true | _ => false end))
         else Ok false);
    if b : bool then Ok true else any_incomplete ks' data
  end.

(** [Device(data)]: the instance when the constructor returns, and the
    payload as the call leaves it. *)
Definition __init__ (data : dict) : res t * dict :=
  match any_incomplete required data with
  | Raise e => (Raise e, data)
  | Ok true =>
    (Raise (WLEDError "WLED data is incomplete, cannot construct device object"),
     data)
  | Ok false =>
    let '(r, self, data) := update_from_dict new data in
    (_ ← r; Ok self, data)
  end.

End Device.

(** ** Sample payloads *)

(** The segment of the end-to-end scenario: one colour out of three. *)
Definition segment_one_color : dict :=
  [("fx", PInt 0); ("pal", PInt 0); ("start", PInt 0); ("stop", PInt 10);
   ("col", PList [PList [PInt 255; PInt 0; PInt 0]])].

Definition state_payload : dict :=
  [("on", PBool true); ("bri", PInt 128); ("seg", PList [PDict segment_one_color])].

Definition full_payload : dict :=
  [("effects", PList [PStr "Solid"; PStr "Blink"]);
   ("palettes", PList [PStr "Default"]);
   ("info", PDict [("ver", PStr "0.13.0")]);
   ("state", PDict state_payload)].

(** A later update that carries the state only. *)
Definition state_only_payload : dict := [("state", PDict state_payload)].

(** All four keys, every value empty. *)
Definition empty_values_payload : dict :=
  [("effects", PList []); ("palettes", PList []); ("info", PDict []);
   ("state", PDict [])].

(** A segment with four colours, the second one RGBW. *)
Definition segment_four_colors : dict :=
  [("col", PList [PList [PInt 1; PInt 2; PInt 3];
                  PList [PInt 4; PInt 5; PInt 6; PInt 7];
                  PList [PInt 8; PInt 9; PInt 10];
                  PList [PInt 11; PInt 12; PInt 13]])].

(** ** Vocabulary of the statements *)

(** What the [try] block leaves in the slot of index [i] when [colors] is
    the list [cs]: the tuple of the entry, or the initial [0]. *)
Definition slot_of (cs : list pyval) (i : nat) (v : pyval) : Prop :=
  match cs !! i with
  | Some c => py_tuple c = Ok v
  | None => v = PInt 0
  end.

(** The payload supplies a value for [k]: [data.get(k)] is truthy. *)
Definition supplied (k : string) (data : dict) : bool :=
  truthy (get k PNone data).

(** The order of a catalog.  [name_le]: both names are strings and the
    first does not come after the second, in Python's order on [str]
    (character by character, by code).  [catalog_before id key a b]: [a]
    has the smaller name, or the same name and the smaller id. *)
Definition name_le (a b : pyval) : Prop :=
  match a, b with
  | PStr s, PStr t => String.leb s t = true
  | _, _ => False
  end.

Definition catalog_before {A} (id : A → Z) (key : A → pyval) (a b : A) : Prop :=
  ∃ s t, key a = PStr s ∧ key b = PStr t
         ∧ (String.ltb s t = true ∨ (s = t ∧ id a < id b)).

(** [l] is the catalog of the array [names]: it holds one entry per name,
    the entry's id being the position of the name in the array; its names
    ascend; and of two entries with the same name the one that was first
    in the array, the one with the smaller id, comes first. *)
Definition sorted_catalog {A} (id : A → Z) (key : A → pyval)
    (names : list string) (l : list A) : Prop :=
  (fun a => (id a, key a)) <$> l ≡ₚ imap (fun i s => (Z.of_nat i, PStr s)) names
  ∧ StronglySorted (fun a b => name_le (key a) (key b)) l
  ∧ ∀ i j a b, (i < j)%nat → l !! i = Some a → l !! j = Some b →
               key a = key b → id a < id b.

(** Shapes of values. *)
Definition is_dict (v : pyval) : bool :=
  match v with PDict _ => true | _ => false end.

Definition is_str (v : pyval) : bool :=
  match v with PStr _ => true | _ => false end.

Definition is_list (v : pyval) : bool :=
  match v with PList _ => true | _ => false end.

(** The exceptions that a decode lets out on the payloads of this model
    (payloads whose numbers are integers). *)
Definition escapes (e : exn) : bool :=
  match e with
  | KeyError _ | TypeError | AttributeError => true
  | IndexError | WLEDError _ => false
  end.

(** The outcome is a value or one of the exceptions of [escapes]. *)
Definition sound_outcome {A} (r : res A) : Prop :=
  match r with Ok _ => True | Raise e => escapes e = true end.

(** The entry of the array [names] that the value [v] points at, with its
    position: [v] is a number (or a bool) within the bounds of the array. *)
Definition entry_at (names : list string) (v : pyval) : option (Z * string) :=
  match as_int v with
  | Some z => if Z.leb 0 z then (fun s => (z, s)) <$> names !! Z.to_nat z else None
  | None => None
  end.

(** * Properties *)

(** Unfolds the sequencing of fallible steps. *)
Ltac unfold_res :=
  unfold py_tuple, mbind, res_mbind, mret, res_ret, res_bind in *; simpl in *.

(** ** Dicts *)

Lemma dict_lookup_store_eq k v d : dict_lookup k (dict_store k v d) = Some v.
Proof.
  induction d as [|[k' v'] d IH]; simpl.
  - by rewrite String.eqb_refl.
  - destruct (String.eqb k k') eqn:E; simpl.
    + by rewrite String.eqb_refl.
    + by rewrite E.
Qed.

Lemma dict_lookup_store_ne k k' v d :
  k ≠ k' → dict_lookup k (dict_store k' v d) = dict_lookup k d.
Proof.
  intros Hne. induction d as [|[k'' v''] d IH]; simpl.
  - by apply String.eqb_neq in Hne as ->.
  - destruct (String.eqb k' k'') eqn:E; simpl.
    + apply String.eqb_eq in E as <-.
      by apply String.eqb_neq in Hne as ->.
    + by rewrite IH.
Qed.

Lemma dict_store_same k v d : dict_lookup k d = Some v → dict_store k v d = d.
Proof.
  induction d as [|[k' v'] d IH]; simpl; [done|].
  destruct (String.eqb k k') eqn:E.
  - apply String.eqb_eq in E as <-. by intros [= ->].
  - intros H. by rewrite IH.
Qed.

Lemma get_store_ne k k' dflt v d :
  k ≠ k' → get k dflt (dict_store k' v d) = get k dflt d.
Proof. intros. unfold get. by rewrite dict_lookup_store_ne. Qed.

Lemma contains_store_ne k k' v d :
  k ≠ k' → contains k (dict_store k' v d) = contains k d.
Proof. intros. unfold contains. by rewrite dict_lookup_store_ne. Qed.

Lemma contains_false k d : contains k d = false ↔ dict_lookup k d = None.
Proof. unfold contains. destruct (dict_lookup k d); naive_solver. Qed.

Lemma get_absent k dflt d : contains k d = false → get k dflt d = dflt.
Proof. intros H%contains_false. unfold get. by rewrite H. Qed.

Lemma get_present k dflt d v : dict_lookup k d = Some v → get k dflt d = v.
Proof. intros H. unfold get. by rewrite H. Qed.

(** ** Construction *)

(** The guard of [__init__] never evaluates to [True]: on a key that is in
    the payload the conjunction is [False] at once, on a key that is not,
    the subscript raises. *)
Lemma any_incomplete_outcome ks data :
  if forallb (fun k => contains k data) ks
  then Device.any_incomplete ks data = Ok false
  else ∃ k, k ∈ ks ∧ contains k data = false
            ∧ Device.any_incomplete ks data = Raise (KeyError (PStr k)).
Proof.
  induction ks as [|k ks IH]; simpl; [done|].
  destruct (contains k data) eqn:Hk; simpl.
  - destruct (forallb _ ks); [done|].
    destruct IH as (k' & ? & ? & ?). exists k'. by rewrite elem_of_cons; auto.
  - exists k. split_and!; [left|done|].
    unfold subscript. apply contains_false in Hk. by rewrite Hk.
Qed.

(** C1. The constructor does not raise the construction error
    ([WLEDError], "WLED data is incomplete ...") on a payload that misses
    one of the keys [effects], [palettes], [info], [state]: the guard that
    should detect the missing key subscripts the payload with it, so the
    constructor raises [KeyError] instead.  From the empty mapping the
    outcome is [KeyError('effects')]; on every payload the guard either
    yields [False] (all four keys are there) or raises [KeyError] on a
    missing key, and the constructor with it. *)
Theorem C1_missing_key_raises_KeyError :
  Device.__init__ [] = (Raise (KeyError (PStr "effects")), [])
  ∧ ∀ data : dict,
      if forallb (fun k => contains k data) Device.required
      then Device.any_incomplete Device.required data = Ok false
      else ∃ k, k ∈ Device.required ∧ contains k data = false
                ∧ Device.__init__ data = (Raise (KeyError (PStr k)), data).
Proof.
  split; [done|]. intros data.
  pose proof (any_incomplete_outcome Device.required data) as H.
  destruct (forallb _ _); [done|].
  destruct H as (k & ? & ? & Hk). exists k. split_and!; [done..|].
  unfold Device.__init__. by rewrite Hk.
Qed.

(** ** Segment colours *)

Lemma py_tuple_raises c e : py_tuple c = Raise e → e = TypeError.
Proof. destruct c; unfold_res; congruence. Qed.

Lemma try_colors_list cs f :
  Segment.try_except_IndexError (Segment.Locals (PList cs) (PInt 0) (PInt 0) (PInt 0))
    = (Ok (), f) →
  Segment.colors f = PList (drop 3 cs)
  ∧ slot_of cs 0 (Segment.primary_color f)
  ∧ slot_of cs 1 (Segment.secondary_color f)
  ∧ slot_of cs 2 (Segment.tertiary_color f).
Proof.
  unfold Segment.try_except_IndexError, Segment.try_body, Segment.pop_tuple, slot_of.
  destruct cs as [|c1 [|c2 [|c3 cs]]]; simpl;
    repeat match goal with
           | |- context [py_tuple ?c] =>
               let E := fresh "E" in
               destruct (py_tuple c) eqn:E; simpl;
               [|apply py_tuple_raises in E as ->; done]
           end;
    by intros [= <-].
Qed.

(** A colour list whose first three entries are sequences is consumed
    without an exception. *)
Lemma try_colors_total cs :
  Forall (fun c => is_ok (py_iter c) = true) (take 3 cs) →
  ∃ f, Segment.try_except_IndexError
         (Segment.Locals (PList cs) (PInt 0) (PInt 0) (PInt 0)) = (Ok (), f).
Proof.
  unfold Segment.try_except_IndexError, Segment.try_body, Segment.pop_tuple, py_tuple.
  destruct cs as [|c1 [|c2 [|c3 cs]]]; simpl; intros H;
    repeat match goal with
           | H : Forall _ (_ :: _) |- _ => apply Forall_cons in H as [? H]
           | H : is_ok (py_iter ?c) = true |- _ =>
               destruct (py_iter c); simpl in *; [clear H|done]
           end; eauto.
Qed.

(** What a segment decode that returns has done, read on the payload as
    it was passed in. *)
Lemma segment_from_dict_Ok segment_id data effects palettes state_on state_brightness seg data' :
  Segment.from_dict segment_id data effects palettes state_on state_brightness
    = (Ok seg, data') →
  ∃ difference f,
    py_sub (get "stop" (PInt 0) data) (get "start" (PInt 0) data) = Ok difference
    ∧ Segment.try_except_IndexError
        (Segment.Locals (get "col" (PList []) data) (PInt 0) (PInt 0) (PInt 0))
      = (Ok (), f)
    ∧ data' = (if contains "col" data
               then dict_store "col" (Segment.colors f) data else data)
    ∧ seg =
      {| Segment.brightness := get "bri" state_brightness data;
         Segment.clones := get "cln" (PInt (-1)) data;
         Segment.color_primary := Segment.primary_color f;
         Segment.color_secondary := Segment.secondary_color f;
         Segment.color_tertiary := Segment.tertiary_color f;
         Segment.effect :=
           Segment.next
             (fun item => int_eq (Effect.effect_id item) (get "fx" (PInt 0) data))
             effects (Effect.mk 0 (PStr "Unknown"));
         Segment.intensity := get "ix" (PInt 0) data;
         Segment.length := get "len" difference data;
         Segment.on := get "on" state_on data;
         Segment.palette :=
           Segment.next
             (fun item => int_eq (Palette.palette_id item) (get "pal" (PInt 0) data))
             palettes {| Palette.palette_id := 0; Palette.name := PStr "Unknown" |};
         Segment.reverse := get "reverse" (PBool false) data;
         Segment.segment_id := segment_id;
         Segment.selected := get "sel" (PBool false) data;
         Segment.speed := get "sx" (PInt 0) data;
         Segment.start := get "start" (PInt 0) data;
         Segment.stop := get "stop" (PInt 0) data |}.
Proof.
  unfold Segment.from_dict.
  destruct (py_sub _ _) as [difference|]; [|done].
  destruct (Segment.try_except_IndexError _) as [[[]|] f]; [|done].
  intros [= <- <-]. exists difference, f. split_and!; [done..|].
  destruct (contains "col" data); [|done].
  by rewrite !get_store_ne.
Qed.

(** C2. The colour slots that the payload does not fill hold the integer
    [0], not the tuple [(0, 0, 0)]: the decoder initialises the three
    variables by unpacking [(0, 0, 0)].  On the segment of the end-to-end
    scenario, whose ["col"] has the single entry [[255, 0, 0]], the primary
    colour is [(255, 0, 0)] and the secondary and tertiary colours are
    [0]. *)
Theorem C2_unfilled_color_slots_are_int_zero :
  ∃ seg data',
    Segment.from_dict 0 segment_one_color [] [] (PBool true) (PInt 128) = (Ok seg, data')
    ∧ Segment.color_primary seg = PTuple [PInt 255; PInt 0; PInt 0]
    ∧ Segment.color_secondary seg = PInt 0
    ∧ Segment.color_tertiary seg = PInt 0.
Proof. eexists _, _. split; [reflexivity|]. done. Qed.

Lemma segment_from_dict_intro segment_id data effects palettes state_on state_brightness difference f :
  py_sub (get "stop" (PInt 0) data) (get "start" (PInt 0) data) = Ok difference →
  Segment.try_except_IndexError
    (Segment.Locals (get "col" (PList []) data) (PInt 0) (PInt 0) (PInt 0))
    = (Ok (), f) →
  ∃ seg,
    Segment.from_dict segment_id data effects palettes state_on state_brightness
    = (Ok seg,
       if contains "col" data then dict_store "col" (Segment.colors f) data else data).
Proof.
  intros Hsub Htry. unfold Segment.from_dict. rewrite Hsub, Htry. eauto.
Qed.

(** A segment payload of the expected shape decodes: numeric (or absent)
    ["start"] and ["stop"], and a ["col"] that is absent or a list whose
    first three entries are sequences. *)
Lemma segment_from_dict_total segment_id data effects palettes state_on state_brightness cs :
  is_Some (as_int (get "start" (PInt 0) data)) →
  is_Some (as_int (get "stop" (PInt 0) data)) →
  get "col" (PList []) data = PList cs →
  Forall (fun c => is_ok (py_iter c) = true) (take 3 cs) →
  ∃ seg data',
    Segment.from_dict segment_id data effects palettes state_on state_brightness
    = (Ok seg, data').
Proof.
  intros [start Hstart] [stop Hstop] Hcol Hcs.
  destruct (try_colors_total cs Hcs) as [f Hf].
  destruct (segment_from_dict_intro segment_id data effects palettes
              state_on state_brightness (PInt (stop - start)) f) as [seg Hseg].
  - unfold py_sub. by rewrite Hstart, Hstop.
  - by rewrite Hcol.
  - eauto.
Qed.

(** The end-to-end scenario: the one segment resolves effect 0 to "Solid",
    which the sorted table holds in second place, and has length 10. *)
Example scenario_segment :
  ∃ dev data' st seg,
    Device.__init__ full_payload = (Ok dev, data')
    ∧ Device.state dev = Some st
    ∧ State.segments st = [seg]
    ∧ Segment.effect seg = Effect.mk 0 (PStr "Solid")
    ∧ Segment.palette seg = Palette.mk (PStr "Default") 0
    ∧ Segment.color_primary seg = PTuple [PInt 255; PInt 0; PInt 0]
    ∧ Segment.length seg = PInt 10.
Proof. eexists _, _, _, _. split; [reflexivity|]. by split_and!. Qed.

(** ** Effect and palette of a segment *)

Lemma next_spec {A} (p : A → bool) (items : list A) (dflt : A) :
  (Segment.next p items dflt ∈ items ∧ p (Segment.next p items dflt) = true)
  ∨ ((∀ item, item ∈ items → p item = false) ∧ Segment.next p items dflt = dflt).
Proof.
  unfold Segment.next. destruct (find p items) as [item|] eqn:E.
  - apply find_some in E as [Hin Hp]. left. by rewrite list_elem_of_In.
  - right. split; [|done]. intros item Hin%list_elem_of_In.
    by apply (find_none p items E).
Qed.

(** C5. A segment decode that returns has an effect and a palette.  The
    effect is an entry of the table that was passed in whose [effect_id]
    equals the payload's ["fx"] (0 when the key is absent), or, when no
    entry of the table has that id, the value [Effect(effect_id=0,
    name="Unknown")]; the palette likewise, from ["pal"] and the palette
    table. *)
Theorem C5_unknown_id_yields_sentinel
    segment_id data effects palettes state_on state_brightness seg data' :
  Segment.from_dict segment_id data effects palettes state_on state_brightness
    = (Ok seg, data') →
  ((Segment.effect seg ∈ effects
    ∧ int_eq (Effect.effect_id (Segment.effect seg)) (get "fx" (PInt 0) data) = true)
   ∨ ((∀ item, item ∈ effects →
         int_eq (Effect.effect_id item) (get "fx" (PInt 0) data) = false)
      ∧ Segment.effect seg = Effect.mk 0 (PStr "Unknown")))
  ∧ ((Segment.palette seg ∈ palettes
      ∧ int_eq (Palette.palette_id (Segment.palette seg)) (get "pal" (PInt 0) data) = true)
     ∨ ((∀ item, item ∈ palettes →
           int_eq (Palette.palette_id item) (get "pal" (PInt 0) data) = false)
        ∧ Segment.palette seg
          = {| Palette.palette_id := 0; Palette.name := PStr "Unknown" |})).
Proof.
  intros (difference & f & _ & _ & _ & ->)%segment_from_dict_Ok. simpl. split.
  - apply (next_spec (fun item => int_eq (Effect.effect_id item) _)).
  - apply (next_spec (fun item => int_eq (Palette.palette_id item) _)).
Qed.

(** A segment that asks for effect 7 and palette 3 of tables that hold
    effect 1 and palette 0 gets "Unknown" for both. *)
Lemma C5_unknown_id_witness :
  ∃ seg data',
    Segment.from_dict 0 [("fx", PInt 7); ("pal", PInt 3)]
      [Effect.mk 1 (PStr "Blink")] [Palette.mk (PStr "Default") 0]
      (PBool true) (PInt 128) = (Ok seg, data')
    ∧ Segment.effect seg = Effect.mk 0 (PStr "Unknown")
    ∧ Segment.palette seg = {| Palette.palette_id := 0; Palette.name := PStr "Unknown" |}.
Proof.
  eexists _, _. split; [reflexivity|].
  destruct (C5_unknown_id_yields_sentinel 0 [("fx", PInt 7); ("pal", PInt 3)]
              [Effect.mk 1 (PStr "Blink")] [Palette.mk (PStr "Default") 0]
              (PBool true) (PInt 128) _ _ eq_refl)
    as [[[_ He]|[_ He]] [[_ Hp]|[_ Hp]]];
    try (vm_compute in He; discriminate He);
    try (vm_compute in Hp; discriminate Hp).
  exact (conj He Hp).
Defined.

(** ** Derived flags of the state *)

Lemma int_eq_minus_one v : int_eq (-1) v = true ↔ v = PInt (-1).
Proof.
  unfold int_eq, as_int. destruct v as [|[]|z| | | |]; try (split; done).
  rewrite Z.eqb_eq. split; [by intros <-|by intros [= <-]].
Qed.

(** C6. [playlist_active] is true exactly when [playlist] is [-1], and
    [preset_active] is true exactly when [preset] is [-1]. *)
Theorem C6_active_flags_true_on_minus_one (self : State.t) :
  (State.playlist_active self = true ↔ State.playlist self = PInt (-1))
  ∧ (State.preset_active self = true ↔ State.preset self = PInt (-1)).
Proof. split; apply int_eq_minus_one. Qed.

(** ** Wifi *)

(** C7. [Wifi.from_dict] returns [None] exactly when the payload has no
    ["wifi"] key.  When the key is bound to a mapping the result is a
    [Wifi] whose fields are read from that mapping, each with its default:
    bssid "00:00:00:00:00:00", channel 0, rssi 0, signal 0; the empty
    mapping gives the [Wifi] of the four defaults. *)
Theorem C7_wifi_none_iff_key_absent (data : dict) :
  (Wifi.from_dict data = Ok None ↔ contains "wifi" data = false)
  ∧ (∀ wifi, dict_lookup "wifi" data = Some (PDict wifi) →
       Wifi.from_dict data
       = Ok (Some {| Wifi.bssid := get "bssid" (PStr "00:00:00:00:00:00") wifi;
                     Wifi.channel := get "channel" (PInt 0) wifi;
                     Wifi.rssi := get "rssi" (PInt 0) wifi;
                     Wifi.signal := get "signal" (PInt 0) wifi |}))
  ∧ (dict_lookup "wifi" data = Some (PDict []) →
       Wifi.from_dict data
       = Ok (Some (Wifi.mk (PStr "00:00:00:00:00:00") (PInt 0) (PInt 0) (PInt 0)))).
Proof.
  unfold Wifi.from_dict, contains, get. split_and!.
  - destruct (dict_lookup "wifi" data) as [wifi|]; simpl; [|done].
    split; [|done]. destruct wifi; unfold_res; done.
  - by intros wifi ->.
  - by intros ->.
Qed.

Lemma C7_wifi_empty_mapping_witness :
  Wifi.from_dict [("wifi", PDict [])]
  = Ok (Some (Wifi.mk (PStr "00:00:00:00:00:00") (PInt 0) (PInt 0) (PInt 0))).
Proof.
  exact (proj2 (proj2 (C7_wifi_none_iff_key_absent [("wifi", PDict [])])) eq_refl).
Defined.

(** C7, as stated for every payload that contains the key, fails on a
    payload that binds ["wifi"] to null: the key is there, and the decode
    raises [AttributeError] instead of returning a [Wifi]. *)
Lemma C7_wifi_null_counterexample :
  contains "wifi" [("wifi", PNone)] = true
  ∧ Wifi.from_dict [("wifi", PNone)] = Raise AttributeError
  ∧ ¬ ∃ wifi, Wifi.from_dict [("wifi", PNone)] = Ok (Some wifi).
Proof. split_and!; [done..|]. by intros [wifi ?]. Qed.

(** ** Segments of a state *)

Lemma decode_segments_Ok items : ∀ segment_id effects palettes on brightness ss items',
  State.decode_segments segment_id items effects palettes on brightness = (Ok ss, items') →
  length ss = length items
  ∧ ∀ i seg, ss !! i = Some seg →
      ∃ segment segment',
        items !! i = Some (PDict segment)
        ∧ items' !! i = Some (PDict segment')
        ∧ Segment.from_dict (segment_id + Z.of_nat i) segment
            effects palettes on brightness = (Ok seg, segment').
Proof.
  induction items as [|item items IH]; intros segment_id effects palettes on brightness ss items'.
  - simpl. intros [= <- <-]. split; [done|]. intros i seg. by rewrite lookup_nil.
  - simpl. destruct item as [| | | | | |segment]; try done.
    destruct (Segment.from_dict _ _ _ _ _ _) as [[s|] segment'] eqn:Hs; [|done].
    destruct (State.decode_segments _ _ _ _ _ _) as [[ss'|] rest] eqn:Hrest;
      unfold_res; [|done].
    intros [= <- <-]. apply IH in Hrest as [Hlen Hrest]. split; [by simpl; f_equal|].
    intros [|i] seg; simpl.
    + intros [= <-]. exists segment, segment'. by rewrite Z.add_0_r.
    + intros (sg & sg' & ? & ? & Hd)%Hrest. exists sg, sg'. split_and!; [done..|].
      rewrite <- Hd. f_equal. lia.
Qed.

(** What a state decode that returns has done, read on the payload as it
    was passed in. *)
Lemma state_from_dict_Ok data effects palettes st data' :
  State.from_dict data effects palettes = (Ok st, data') →
  ∃ items items',
    py_iter (get "seg" (PList []) data) = Ok items
    ∧ State.decode_segments 0 items effects palettes
        (get "on" (PBool false) data) (get "bri" (PInt 1) data)
      = (Ok (State.segments st), items')
    ∧ data' = (if contains "seg" data
               then dict_store "seg" (State.with_items (get "seg" (PList []) data) items') data
               else data)
    ∧ State.brightness st = get "bri" (PInt 1) data
    ∧ State.on st = get "on" (PBool false) data
    ∧ State.playlist st = get "pl" (PInt (-1)) data
    ∧ State.preset st = get "ps" (PInt (-1)) data
    ∧ State.transition st = get "transition" (PInt 0) data.
Proof.
  unfold State.from_dict.
  destruct (py_iter _) as [items|]; [|done].
  destruct (State.decode_segments _ _ _ _ _ _) as [[ss|] items'] eqn:Hss;
    unfold_res; [|done].
  destruct (Nightlight.from_dict _) as [nl|]; [|done].
  destruct (Sync.from_dict _) as [sy|]; [|done].
  intros [= <- <-]. exists items, items'. simpl. split_and!; try done.
  all: destruct (contains "seg" data); [by rewrite get_store_ne|done].
Qed.

(** C8. In a state decode that returns, the state's [brightness] is the
    payload's ["bri"] (1 when absent) and its [on] is the payload's ["on"]
    (false when absent), and there is one segment per item of ["seg"], in
    order.  A segment whose payload has no ["bri"] has the state's
    brightness, one without ["on"] has the state's [on], one without
    ["cln"] has clones [-1], and one without ["len"] has length
    [stop - start]. *)
Theorem C8_segment_inherits_state_defaults data effects palettes st data' :
  State.from_dict data effects palettes = (Ok st, data') →
  State.brightness st = get "bri" (PInt 1) data
  ∧ State.on st = get "on" (PBool false) data
  ∧ ∃ items,
      py_iter (get "seg" (PList []) data) = Ok items
      ∧ length (State.segments st) = length items
      ∧ ∀ i seg, State.segments st !! i = Some seg →
          ∃ segment,
            items !! i = Some (PDict segment)
            ∧ Segment.segment_id seg = Z.of_nat i
            ∧ (contains "bri" segment = false →
               Segment.brightness seg = State.brightness st)
            ∧ (contains "on" segment = false → Segment.on seg = State.on st)
            ∧ (contains "cln" segment = false → Segment.clones seg = PInt (-1))
            ∧ (contains "len" segment = false →
               ∃ start stop,
                 as_int (get "start" (PInt 0) segment) = Some start
                 ∧ as_int (get "stop" (PInt 0) segment) = Some stop
                 ∧ Segment.length seg = PInt (stop - start)).
Proof.
  intros (items & items' & Hiter & Hdec & _ & Hbri & Hon & _)%state_from_dict_Ok.
  split_and!; [done..|]. exists items.
  apply decode_segments_Ok in Hdec as [Hlen Hdec]. split_and!; [done..|].
  intros i seg (segment & segment' & Hi & _ & Hseg)%Hdec. exists segment.
  apply segment_from_dict_Ok in Hseg as (difference & f & Hsub & _ & _ & ->).
  simpl. rewrite Hbri, Hon. split_and!; try done; try (intros; by apply get_absent).
  intros ->%(get_absent _ difference). unfold py_sub in Hsub.
  destruct (as_int (get "stop" _ _)) as [stop|]; [|done].
  destruct (as_int (get "start" _ _)) as [start|]; [|done].
  exists start, stop. by injection Hsub as <-.
Qed.

(** The state of the scenario: its one segment names neither brightness
    nor on/off and gets 128 and [True] from the state. *)
Lemma C8_segment_inherits_witness :
  ∃ st data' seg,
    State.from_dict state_payload [] [] = (Ok st, data')
    ∧ State.segments st !! 0%nat = Some seg
    ∧ Segment.brightness seg = PInt 128
    ∧ Segment.on seg = PBool true
    ∧ Segment.clones seg = PInt (-1).
Proof.
  eexists _, _, _. split; [reflexivity|]. split; [reflexivity|].
  destruct (C8_segment_inherits_state_defaults state_payload [] [] _ _ eq_refl)
    as (Hbri & Hon & items & Hitems & _ & Hsegs).
  injection Hitems as <-.
  destruct (Hsegs 0%nat _ eq_refl) as (segment & Hsegment & _ & Hb & Ho & Hc & _).
  injection Hsegment as <-.
  exact (conj (Hb eq_refl) (conj (Ho eq_refl) (Hc eq_refl))).
Defined.

(** ** The payload after a segment decode *)

Lemma py_tuple_Ok c v : py_tuple c = Ok v → ∃ l, v = PTuple l.
Proof. destruct c; unfold_res; intros [= <-]; eauto. Qed.

(** C9. A segment decode changes the payload it is given: the entries it
    has read are gone from the ["col"] list.  After a decode that returns,
    the list has lost its first three entries (all of them when it had
    fewer), so a non-empty list leaves a different payload behind; and
    when the list had one to three entries, decoding the payload again
    returns a segment whose three colours are the initial [0], a primary
    colour other than the one the first decode returned. *)
Theorem C9_segment_decode_consumes_colors
    segment_id data effects palettes state_on state_brightness cs seg data' :
  dict_lookup "col" data = Some (PList cs) →
  Segment.from_dict segment_id data effects palettes state_on state_brightness
    = (Ok seg, data') →
  data' = dict_store "col" (PList (drop 3 cs)) data
  ∧ dict_lookup "col" data' = Some (PList (drop 3 cs))
  ∧ (cs ≠ [] → data' ≠ data)
  ∧ (cs ≠ [] → (length cs ≤ 3)%nat →
     ∃ seg2,
       Segment.from_dict segment_id data' effects palettes state_on state_brightness
       = (Ok seg2, data')
       ∧ Segment.color_primary seg2 = PInt 0
       ∧ Segment.color_secondary seg2 = PInt 0
       ∧ Segment.color_tertiary seg2 = PInt 0
       ∧ Segment.color_primary seg2 ≠ Segment.color_primary seg).
Proof.
  intros Hcol Hdec.
  apply segment_from_dict_Ok in Hdec as (difference & f & Hsub & Htry & -> & ->).
  rewrite (get_present _ _ _ _ Hcol) in Htry.
  apply try_colors_list in Htry as (Hcolors & Hprimary & _).
  unfold contains. rewrite Hcol, Hcolors.
  assert (dict_lookup "col" (dict_store "col" (PList (drop 3 cs)) data)
          = Some (PList (drop 3 cs))) as Hcol' by apply dict_lookup_store_eq.
  split_and!; [done..| |].
  - intros Hne Heq. rewrite Heq, Hcol in Hcol'. injection Hcol' as Hdrop.
    apply (f_equal length) in Hdrop. rewrite length_drop in Hdrop.
    destruct cs; [done|simpl in Hdrop; lia].
  - intros Hne Hlen. rewrite (drop_ge cs 3) in * by done.
    set (data' := dict_store "col" (PList []) data) in *.
    destruct (segment_from_dict_intro segment_id data' effects palettes
                state_on state_brightness difference
                (Segment.Locals (PList []) (PInt 0) (PInt 0) (PInt 0)))
      as [seg2 Hseg2].
    { subst data'. by rewrite !get_store_ne. }
    { by rewrite (get_present _ _ _ _ Hcol'). }
    unfold contains in Hseg2. rewrite Hcol' in Hseg2. simpl in Hseg2.
    rewrite (dict_store_same _ _ _ Hcol') in Hseg2.
    exists seg2. split; [done|].
    apply segment_from_dict_Ok in Hseg2 as (? & f2 & _ & Htry2 & _ & ->).
    rewrite (get_present _ _ _ _ Hcol') in Htry2. injection Htry2 as <-. simpl.
    split_and!; [done..|].
    destruct cs as [|c cs]; [done|]. unfold slot_of in Hprimary. simpl in Hprimary.
    apply py_tuple_Ok in Hprimary as [l ->]. done.
Qed.

(** The segment of the scenario: the first decode takes its only colour
    out of the payload, the second decode finds none. *)
Lemma C9_second_decode_witness :
  ∃ seg data' seg2,
    Segment.from_dict 0 segment_one_color [] [] (PBool true) (PInt 128) = (Ok seg, data')
    ∧ dict_lookup "col" data' = Some (PList [])
    ∧ Segment.from_dict 0 data' [] [] (PBool true) (PInt 128) = (Ok seg2, data')
    ∧ Segment.color_primary seg = PTuple [PInt 255; PInt 0; PInt 0]
    ∧ Segment.color_primary seg2 = PInt 0.
Proof.
  destruct (C9_segment_decode_consumes_colors 0 segment_one_color [] []
              (PBool true) (PInt 128) [PList [PInt 255; PInt 0; PInt 0]] _ _
              eq_refl eq_refl)
    as (_ & Hcol & _ & Hsecond).
  destruct (Hsecond ltac:(discriminate) ltac:(simpl; lia)) as (seg2 & Hseg2 & Hp & _).
  eexists _, _, seg2. split; [reflexivity|].
  exact (conj Hcol (conj Hseg2 (conj eq_refl Hp))).
Defined.

(** ** Updates of the device *)

(** A key the payload does not supply leaves its attribute as it was,
    whatever the outcome of the update. *)
Lemma update_keeps self data r self' data' :
  Device.update_from_dict self data = (r, self', data') →
  (supplied "effects" data = false → Device.effects self' = Device.effects self)
  ∧ (supplied "palettes" data = false → Device.palettes self' = Device.palettes self)
  ∧ (supplied "info" data = false → Device.info self' = Device.info self)
  ∧ (supplied "state" data = false → Device.state self' = Device.state self).
Proof.
  unfold Device.update_from_dict, supplied. unfold_res. intros Hupdate.
  repeat case_match; simplify_eq/=; done.
Qed.

(** An update that returns has replaced the attribute of every key the
    payload supplies by the decode of the supplied value, the state being
    decoded against the tables the device holds after the update. *)
Lemma update_replaces self data self' data' :
  Device.update_from_dict self data = (Ok (), self', data') →
  (supplied "effects" data = true →
   ∃ effects, Device.build_effects (get "effects" PNone data) = Ok effects
              ∧ Device.effects self' = Some effects)
  ∧ (supplied "palettes" data = true →
     ∃ palettes, Device.build_palettes (get "palettes" PNone data) = Ok palettes
                 ∧ Device.palettes self' = Some palettes)
  ∧ (supplied "info" data = true →
     ∃ info, Device.decode_info (get "info" PNone data) = Ok info
             ∧ Device.info self' = Some info)
  ∧ (supplied "state" data = true →
     ∃ state,
       fst (Device.decode_state (get "state" PNone data)
              (Device.get_effects self') (Device.get_palettes self')) = Ok state
       ∧ Device.state self' = Some state).
Proof.
  unfold Device.update_from_dict, supplied. unfold_res. intros Hupdate.
  repeat case_match; simplify_eq/=; split_and!; try done; intros _; eauto.
  all: unfold Device.get_effects, Device.get_palettes in *; simpl in *.
  all: match goal with H : Device.decode_state _ _ _ = _ |- _ => rewrite H end; eauto.
Qed.

(** C3. An update leaves the attribute of a key untouched when the
    payload's value for the key is falsy or absent, and, when it returns,
    has replaced the attribute of every key with a truthy value by the decode
    of that value alone.  The state is decoded against the tables the
    device holds once the update is over: the tables it had when the
    payload supplies none, the ones just built otherwise. *)
Theorem C3_update_replaces_supplied_keeps_rest self data r self' data' :
  Device.update_from_dict self data = (r, self', data') →
  ((supplied "effects" data = false → Device.effects self' = Device.effects self)
   ∧ (supplied "palettes" data = false → Device.palettes self' = Device.palettes self)
   ∧ (supplied "info" data = false → Device.info self' = Device.info self)
   ∧ (supplied "state" data = false → Device.state self' = Device.state self))
  ∧ (r = Ok () →
     (supplied "effects" data = true →
      ∃ effects, Device.build_effects (get "effects" PNone data) = Ok effects
                 ∧ Device.effects self' = Some effects)
     ∧ (supplied "palettes" data = true →
        ∃ palettes, Device.build_palettes (get "palettes" PNone data) = Ok palettes
                    ∧ Device.palettes self' = Some palettes)
     ∧ (supplied "info" data = true →
        ∃ info, Device.decode_info (get "info" PNone data) = Ok info
                ∧ Device.info self' = Some info)
     ∧ (supplied "state" data = true →
        ∃ state,
          fst (Device.decode_state (get "state" PNone data)
                 (Device.get_effects self') (Device.get_palettes self')) = Ok state
          ∧ Device.state self' = Some state)).
Proof.
  intros Hupdate. split.
  - by apply update_keeps in Hupdate.
  - intros ->. by apply update_replaces in Hupdate.
Qed.

(** The scenario, then an update that carries the state only: tables and
    info stay, and the new state's segment resolves effect 0 against the
    table of the construction. *)
Lemma C3_state_only_update_witness :
  ∃ dev data1 dev' data2 st seg,
    Device.__init__ full_payload = (Ok dev, data1)
    ∧ Device.update_from_dict dev state_only_payload = (Ok (), dev', data2)
    ∧ Device.effects dev' = Device.effects dev
    ∧ Device.palettes dev' = Device.palettes dev
    ∧ Device.info dev' = Device.info dev
    ∧ Device.state dev' = Some st
    ∧ State.segments st = [seg]
    ∧ Segment.effect seg = Effect.mk 0 (PStr "Solid").
Proof.
  eexists _, _, _, _, _, _. split; [reflexivity|]. split; [reflexivity|].
  match goal with
  | |- Device.effects ?dev' = Device.effects ?dev ∧ _ =>
      destruct (C3_update_replaces_supplied_keeps_rest dev state_only_payload
                  (Ok ()) dev' _ eq_refl) as [(He & Hp & Hi & _) _]
  end.
  split; [exact (He eq_refl)|]. split; [exact (Hp eq_refl)|].
  split; [exact (Hi eq_refl)|]. split; [reflexivity|]. split; reflexivity.
Defined.

(** ** Attributes a construction leaves unset *)

(** C10. Take a payload that has the four keys.  When all four values are
    falsy the constructor returns, and the instance has no attribute of
    its own.  Whenever the constructor returns, a falsy ["info"] leaves
    [info] unset and reading it raises [AttributeError], a falsy ["state"]
    does the same to [state], and a falsy ["effects"] or ["palettes"]
    leaves the instance without the attribute, so that reading it yields
    the empty list of the class. *)
Theorem C10_falsy_values_leave_attributes_unset (data : dict) :
  forallb (fun k => contains k data) Device.required = true →
  (forallb (fun k => negb (supplied k data)) Device.required = true →
   Device.__init__ data = (Ok Device.new, data))
  ∧ ∀ dev data', Device.__init__ data = (Ok dev, data') →
      (supplied "info" data = false →
       Device.info dev = None ∧ Device.get_info dev = Raise AttributeError)
      ∧ (supplied "state" data = false →
         Device.state dev = None ∧ Device.get_state dev = Raise AttributeError)
      ∧ (supplied "effects" data = false →
         Device.effects dev = None ∧ Device.get_effects dev = [])
      ∧ (supplied "palettes" data = false →
         Device.palettes dev = None ∧ Device.get_palettes dev = []).
Proof.
  intros Hkeys. unfold Device.__init__.
  pose proof (any_incomplete_outcome Device.required data) as Hguard.
  rewrite Hkeys in Hguard. rewrite Hguard. split.
  - simpl. rewrite !andb_true_iff, !negb_true_iff.
    unfold Device.update_from_dict, supplied.
    by intros (-> & -> & -> & -> & _).
  - intros dev data'.
    destruct (Device.update_from_dict Device.new data) as [[r self] data1] eqn:Hupdate.
    destruct r as [[]|]; unfold_res; [|done]. intros [= <- <-].
    apply update_keeps in Hupdate as (He & Hp & Hi & Hs).
    unfold Device.get_info, Device.get_state, Device.get_effects, Device.get_palettes.
    split_and!; intros Hfalsy;
      [rewrite (Hi Hfalsy)|rewrite (Hs Hfalsy)|rewrite (He Hfalsy)|rewrite (Hp Hfalsy)];
      done.
Qed.

(** The payload whose four values are empty: construction returns, [info]
    and [state] cannot be read, the tables read as empty. *)
Lemma C10_empty_values_witness :
  ∃ dev,
    Device.__init__ empty_values_payload = (Ok dev, empty_values_payload)
    ∧ Device.get_info dev = Raise AttributeError
    ∧ Device.get_state dev = Raise AttributeError
    ∧ Device.get_effects dev = []
    ∧ Device.get_palettes dev = [].
Proof.
  destruct (C10_falsy_values_leave_attributes_unset empty_values_payload eq_refl)
    as [Hnew Hunset].
  exists Device.new. split; [exact (Hnew eq_refl)|].
  destruct (Hunset Device.new empty_values_payload (Hnew eq_refl))
    as (Hi & Hs & He & Hp).
  exact (conj (proj2 (Hi eq_refl)) (conj (proj2 (Hs eq_refl))
           (conj (proj2 (He eq_refl)) (proj2 (Hp eq_refl))))).
Defined.

(** ** Catalogs *)

Lemma ltb_Lt s t : String.ltb s t = true ↔ String.compare s t = Lt.
Proof. unfold String.ltb. destruct (String.compare s t); naive_solver. Qed.

Lemma ltb_trans s t u :
  String.ltb s t = true → String.ltb t u = true → String.ltb s u = true.
Proof.
  rewrite !ltb_Lt. intros H1%String_as_OT.cmp_lt H2%String_as_OT.cmp_lt.
  apply String_as_OT.cmp_lt. by eapply String_as_OT.lt_trans.
Qed.

Lemma compare_refl s : String.compare s s = Eq.
Proof. by apply (String_as_OT.cmp_eq s s). Qed.

Lemma ltb_irrefl s : String.ltb s s = false.
Proof. unfold String.ltb. by rewrite compare_refl. Qed.

Lemma not_ltb s t : String.ltb t s = false → String.ltb s t = true ∨ s = t.
Proof.
  unfold String.ltb. rewrite (String.compare_antisym t s).
  destruct (String.compare s t) eqn:E; simpl; try done; [|by left].
  right. by apply String.compare_eq_iff.
Qed.

Lemma ltb_leb s t : String.ltb s t = true ∨ s = t → String.leb s t = true.
Proof.
  unfold String.ltb, String.leb. intros [H| ->].
  - by destruct (String.compare s t).
  - by rewrite compare_refl.
Qed.

Lemma StronglySorted_lookup {A} (R : relation A) l :
  StronglySorted R l ↔
  ∀ i j a b, (i < j)%nat → l !! i = Some a → l !! j = Some b → R a b.
Proof.
  induction l as [|x l IH].
  - split; [|constructor]. intros _ i j a b _. by rewrite lookup_nil.
  - rewrite StronglySorted_cons, IH, Forall_lookup. split.
    + intros [Hx Hl] [|i] [|j] a b Hij; simpl; try lia.
      * intros [= <-] Hb. by apply (Hx j).
      * apply (Hl i j). lia.
    + intros H. split.
      * intros j b. apply (H 0%nat (S j) x b); [lia|done].
      * intros i j a b Hij. apply (H (S i) (S j)). lia.
Qed.

Lemma StronglySorted_weaken {A} (R R' : relation A) l :
  (∀ a b, R a b → R' a b) → StronglySorted R l → StronglySorted R' l.
Proof. rewrite !StronglySorted_lookup. naive_solver. Qed.

Section catalog.
Context {A : Type} (id : A → Z) (key : A → pyval).

Local Abbreviation before := (catalog_before id key).

Lemma before_ltb a b s t :
  key a = PStr s → key b = PStr t → String.ltb s t = true → before a b.
Proof. intros. exists s, t. auto. Qed.

(** Insertion into a sorted catalog whose entries all have a larger id:
    no comparison raises, nothing is lost, and the order is kept. *)
Lemma insert_sorted x l :
  (∃ s, key x = PStr s) →
  Forall (fun y => ∃ t, key y = PStr t) l →
  Forall (fun y => id x < id y) l →
  StronglySorted before l →
  ∃ l', insert key x l = Ok l' ∧ l' ≡ₚ x :: l ∧ StronglySorted before l'.
Proof.
  intros [s Hx]. induction l as [|y l IH]; intros Hstr Hid Hsorted.
  - exists [x]. split_and!; [done..|]. repeat constructor.
  - apply Forall_cons in Hstr as [[t Hy] Hstr].
    apply Forall_cons in Hid as [Hxy Hid].
    apply StronglySorted_cons in Hsorted as [Hy_first Hsorted].
    simpl. rewrite Hx, Hy. unfold_res.
    destruct (String.ltb t s) eqn:Hlt.
    + destruct (IH Hstr Hid Hsorted) as (l' & -> & Hperm & Hsorted').
      exists (y :: l'). split_and!; [done| |].
      * rewrite Hperm. apply Permutation_swap.
      * apply StronglySorted_cons. split; [|done].
        rewrite Hperm. apply Forall_cons. split; [|done].
        by eapply before_ltb.
    + exists (x :: y :: l). split_and!; [done..|].
      apply not_ltb in Hlt.
      assert (before x y) as Hbefore.
      { exists s, t. split_and!; [done..|]. destruct Hlt; auto. }
      apply StronglySorted_cons. split.
      2: by apply StronglySorted_cons.
      * apply Forall_cons. split; [done|].
        rewrite Forall_forall in Hy_first, Hid |- *. intros z Hz.
        destruct (Hy_first z Hz) as (t' & u & Hy' & Hz' & Hyz).
        rewrite Hy in Hy'. injection Hy' as <-.
        exists s, u. split_and!; [done..|]. specialize (Hid z Hz).
        destruct Hlt as [Hlt| ->], Hyz as [Hyz|[-> _]]; eauto using ltb_trans.
Qed.

Lemma sort_sorted l :
  Forall (fun y => ∃ t, key y = PStr t) l →
  StronglySorted (fun a b => id a < id b) l →
  ∃ l', sort key l = Ok l' ∧ l' ≡ₚ l ∧ StronglySorted before l'.
Proof.
  induction l as [|x l IH]; intros Hstr Hid.
  - exists []. split_and!; [done..|]. constructor.
  - apply Forall_cons in Hstr as [Hx Hstr].
    apply StronglySorted_cons in Hid as [Hx_first Hid].
    destruct (IH Hstr Hid) as (s & Hs & Hperm & Hsorted).
    destruct (insert_sorted x s) as (l' & Hl' & Hperm' & Hsorted');
      [done|by rewrite Hperm..|done|].
    exists l'. simpl. rewrite Hs. unfold_res. split_and!; [done| |done].
    by rewrite Hperm', Hperm.
Qed.

(** What follows from the order of the catalog: names ascend, and of two
    entries with the same name the one with the smaller id comes first. *)
Lemma before_name_le l :
  StronglySorted before l →
  StronglySorted (fun a b => name_le (key a) (key b)) l.
Proof.
  apply StronglySorted_weaken. intros a b (s & t & -> & -> & H).
  simpl. apply ltb_leb. destruct H as [?|[? _]]; auto.
Qed.

Lemma before_ties l i j a b :
  StronglySorted before l →
  (i < j)%nat → l !! i = Some a → l !! j = Some b →
  key a = key b → id a < id b.
Proof.
  rewrite StronglySorted_lookup. intros Hsorted Hij Ha Hb Hkey.
  destruct (Hsorted i j a b Hij Ha Hb) as (s & t & Hs & Ht & [Hlt|[_ ?]]); [|done].
  rewrite Hkey, Ht in Hs. injection Hs as ->. by rewrite ltb_irrefl in Hlt.
Qed.

(** Sorting the enumeration of an array of names gives its catalog. *)
Lemma sort_enumerate (mk : Z → pyval → A) (names : list string) :
  (∀ i n, id (mk i n) = i) → (∀ i n, key (mk i n) = n) →
  ∃ l, sort key (map (fun '(i, n) => mk i n) (enumerate (PStr <$> names))) = Ok l
       ∧ sorted_catalog id key names l.
Proof.
  intros Hid Hkey.
  assert (map (fun '(i, n) => mk i n) (enumerate (PStr <$> names))
          = imap (fun i s => mk (Z.of_nat i) (PStr s)) names) as ->.
  { unfold enumerate. change (map ?f ?l) with (f <$> l).
    by rewrite fmap_imap, imap_fmap. }
  destruct (sort_sorted (imap (fun i s => mk (Z.of_nat i) (PStr s)) names))
    as (l & Hsort & Hperm & Hsorted).
  - apply Forall_lookup. intros i a. rewrite list_lookup_imap.
    destruct (names !! i) as [s|]; simpl; [|done]. intros [= <-]. eauto.
  - apply StronglySorted_lookup. intros i j a b Hij. rewrite !list_lookup_imap.
    destruct (names !! i), (names !! j); simpl; try done.
    intros [= <-] [= <-]. rewrite !Hid. lia.
  - exists l. split; [done|]. split_and!.
    + rewrite Hperm, fmap_imap.
      rewrite (imap_ext _ (fun i s => (Z.of_nat i, PStr s))); [done|].
      intros i s _. simpl. by rewrite Hid, Hkey.
    + by apply before_name_le.
    + intros i j a b. by apply before_ties.
Qed.

End catalog.

Lemma truthy_names (names : list string) :
  names ≠ [] → truthy (PList (PStr <$> names)) = true.
Proof. by destruct names. Qed.

Lemma build_effects_names (names : list string) :
  ∃ effects,
    Device.build_effects (PList (PStr <$> names)) = Ok effects
    ∧ sorted_catalog Effect.effect_id Effect.name names effects.
Proof.
  unfold Device.build_effects. unfold_res.
  by apply (sort_enumerate Effect.effect_id Effect.name Effect.mk).
Qed.

Lemma build_palettes_names (names : list string) :
  ∃ palettes,
    Device.build_palettes (PList (PStr <$> names)) = Ok palettes
    ∧ sorted_catalog Palette.palette_id Palette.name names palettes.
Proof.
  unfold Device.build_palettes. unfold_res.
  by apply (sort_enumerate Palette.palette_id Palette.name
              (fun i n => {| Palette.palette_id := i; Palette.name := n |})).
Qed.

(** A table that was built is assigned, whatever the rest of the update
    does; the palettes are reached when the effects did not raise. *)
Lemma update_assigns_effects self data r self' data' effects :
  Device.update_from_dict self data = (r, self', data') →
  supplied "effects" data = true →
  Device.build_effects (get "effects" PNone data) = Ok effects →
  Device.effects self' = Some effects.
Proof.
  unfold Device.update_from_dict, supplied. intros Hupdate Hsupplied Hbuild.
  rewrite Hsupplied, Hbuild in Hupdate. unfold_res.
  repeat case_match; simplify_eq/=; done.
Qed.

Lemma update_assigns_palettes self data r self' data' palettes :
  Device.update_from_dict self data = (r, self', data') →
  (supplied "effects" data = true →
   is_ok (Device.build_effects (get "effects" PNone data)) = true) →
  supplied "palettes" data = true →
  Device.build_palettes (get "palettes" PNone data) = Ok palettes →
  Device.palettes self' = Some palettes.
Proof.
  unfold Device.update_from_dict, supplied. intros Hupdate Heffects Hsupplied Hbuild.
  rewrite Hsupplied, Hbuild in Hupdate. unfold_res.
  destruct (truthy (get "effects" PNone data));
    [destruct (Device.build_effects _); [|by specialize (Heffects eq_refl)]|];
    simpl in *; repeat case_match; simplify_eq/=; done.
Qed.

(** C4. An update whose payload carries a non-empty array of names under
    ["effects"] leaves the device with the catalog of that array as its
    effects table: one entry per name, whose id is the position of the name
    in the array; names in ascending order, whatever the order of the
    array; entries with the same name in the order of their ids.  The same
    holds of ["palettes"] and the palettes table, once the effects of the
    same payload have not raised. *)
Theorem C4_rebuilt_catalog_sorted_by_name
    self data r self' data' (names : list string) :
  Device.update_from_dict self data = (r, self', data') →
  names ≠ [] →
  (dict_lookup "effects" data = Some (PList (PStr <$> names)) →
   ∃ effects,
     Device.effects self' = Some effects
     ∧ sorted_catalog Effect.effect_id Effect.name names effects)
  ∧ (dict_lookup "palettes" data = Some (PList (PStr <$> names)) →
     (supplied "effects" data = true →
      is_ok (Device.build_effects (get "effects" PNone data)) = true) →
     ∃ palettes,
       Device.palettes self' = Some palettes
       ∧ sorted_catalog Palette.palette_id Palette.name names palettes).
Proof.
  intros Hupdate Hnames. split.
  - intros Hget%(get_present _ PNone).
    destruct (build_effects_names names) as (effects & Hbuild & Hcatalog).
    exists effects. split; [|done].
    eapply update_assigns_effects; [done| |by rewrite Hget].
    unfold supplied. rewrite Hget. by apply truthy_names.
  - intros Hget%(get_present _ PNone) Heffects.
    destruct (build_palettes_names names) as (palettes & Hbuild & Hcatalog).
    exists palettes. split; [|done].
    eapply update_assigns_palettes; [done..| |by rewrite Hget].
    unfold supplied. rewrite Hget. by apply truthy_names.
Qed.

(** The scenario: ["Solid", "Blink"] gives Blink (1) before Solid (0). *)
Lemma C4_rebuilt_catalog_witness :
  ∃ dev data',
    Device.__init__ full_payload = (Ok dev, data')
    ∧ Device.effects dev
      = Some [Effect.mk 1 (PStr "Blink"); Effect.mk 0 (PStr "Solid")]
    ∧ sorted_catalog Effect.effect_id Effect.name ["Solid"; "Blink"]
        [Effect.mk 1 (PStr "Blink"); Effect.mk 0 (PStr "Solid")].
Proof.
  eexists _, _. split; [reflexivity|]. split; [reflexivity|].
  destruct (C4_rebuilt_catalog_sorted_by_name Device.new full_payload _ _ _
              ["Solid"; "Blink"] eq_refl ltac:(discriminate)) as [Heffects _].
  destruct (Heffects eq_refl) as (effects & Hassigned & Hcatalog).
  injection Hassigned as <-. exact Hcatalog.
Defined.

(** * Further properties *)

(** ** Value objects *)

(** X1. A payload without the sub-mapping of a value object decodes to the
    object of the defaults: without ["nl"] the nightlight is (duration 1,
    fade false, on false, target brightness 0), without ["udpn"] the sync
    is (send false, receive false), without ["leds"] the leds are all 0,
    fps [None], rgbw false and wv true.  An empty sub-mapping gives the
    same objects. *)
Theorem X1_absent_submapping_gives_defaults (data : dict) :
  (contains "nl" data = false ∨ dict_lookup "nl" data = Some (PDict []) →
   Nightlight.from_dict data
   = Ok (Nightlight.mk (PInt 1) (PBool false) (PBool false) (PInt 0)))
  ∧ (contains "udpn" data = false ∨ dict_lookup "udpn" data = Some (PDict []) →
     Sync.from_dict data
     = Ok {| Sync.send := PBool false; Sync.receive := PBool false |})
  ∧ (contains "leds" data = false ∨ dict_lookup "leds" data = Some (PDict []) →
     Leds.from_dict data
     = Ok (Leds.mk (PInt 0) PNone (PInt 0) (PInt 0) (PInt 0) (PInt 0)
             (PBool false) (PBool true))).
Proof.
  unfold Nightlight.from_dict, Sync.from_dict, Leds.from_dict, get.
  split_and!; intros [->%contains_false| ->]; done.
Qed.

Lemma X1_absent_submapping_witness :
  Nightlight.from_dict [("on", PBool true)]
  = Ok (Nightlight.mk (PInt 1) (PBool false) (PBool false) (PInt 0))
  ∧ Leds.from_dict [("leds", PDict [])]
    = Ok (Leds.mk (PInt 0) PNone (PInt 0) (PInt 0) (PInt 0) (PInt 0)
            (PBool false) (PBool true)).
Proof.
  split.
  - exact (proj1 (X1_absent_submapping_gives_defaults [("on", PBool true)])
             (or_introl eq_refl)).
  - exact (proj2 (proj2 (X1_absent_submapping_gives_defaults [("leds", PDict [])]))
             (or_intror eq_refl)).
Defined.

(** X2. A sub-mapping key that is bound to something else than a mapping
    (null, a number, a string, a list) makes the decoder of the value
    object raise [AttributeError]: no default stands in. *)
Theorem X2_non_mapping_submapping_raises (data : dict) (v : pyval) :
  is_dict v = false →
  (dict_lookup "nl" data = Some v → Nightlight.from_dict data = Raise AttributeError)
  ∧ (dict_lookup "udpn" data = Some v → Sync.from_dict data = Raise AttributeError)
  ∧ (dict_lookup "leds" data = Some v → Leds.from_dict data = Raise AttributeError)
  ∧ (dict_lookup "wifi" data = Some v → Wifi.from_dict data = Raise AttributeError).
Proof.
  intros Hv.
  unfold Nightlight.from_dict, Sync.from_dict, Leds.from_dict, Wifi.from_dict,
    contains, get.
  split_and!; intros ->; destruct v; done.
Qed.

Lemma X2_null_wifi_witness :
  Wifi.from_dict [("wifi", PNone)] = Raise AttributeError.
Proof.
  exact (proj2 (proj2 (proj2
    (X2_non_mapping_submapping_raises [("wifi", PNone)] PNone eq_refl))) eq_refl).
Defined.

(** ** Info *)

(** X3. [Info.from_dict] returns exactly when ["core"] is absent or a
    string and ["leds"] and ["wifi"] are each absent or a mapping; on every
    other payload it raises [AttributeError].  When it returns, the
    [wifi] of the result is [None] exactly when the payload has no
    ["wifi"] key. *)
Theorem X3_info_decodes_iff_shapes (data : dict) :
  if is_str (get "core" (PStr "Unknown") data)
     && is_dict (get "leds" (PDict []) data)
     && is_dict (get "wifi" (PDict []) data)
  then ∃ info, Info.from_dict data = Ok info
               ∧ (Info.wifi info = None ↔ contains "wifi" data = false)
  else Info.from_dict data = Raise AttributeError.
Proof.
  unfold Info.from_dict, Info.replace_underscores, Leds.from_dict, Wifi.from_dict,
    contains, get.
  destruct (dict_lookup "core" data) as [[]|];
    destruct (dict_lookup "leds" data) as [[]|];
    destruct (dict_lookup "wifi" data) as [[]|]; simpl; try done;
    eexists; (split; [reflexivity|]); simpl; done.
Qed.

Lemma info_from_dict_Ok data info :
  Info.from_dict data = Ok info →
  ∃ s, get "core" (PStr "Unknown") data = PStr s
       ∧ Info.arduino_core_version info = PStr (replace_char "_" "." s)
       ∧ Info.websocket info
         = (if int_eq (-1) (get "ws" PNone data) then PNone else get "ws" PNone data).
Proof.
  unfold Info.from_dict, Info.replace_underscores.
  destruct (get "core" (PStr "Unknown") data) as [| | |s| | |]; try done.
  unfold_res. destruct (Leds.from_dict data); [|done].
  destruct (Wifi.from_dict data); [|done]. simpl.
  intros [= <-]. by exists s.
Qed.

(** X4. The [websocket] of a decoded info never equals [-1]: it is the
    payload's ["ws"], or [None] when ["ws"] is absent or equals [-1]. *)
Theorem X4_websocket_never_minus_one data info :
  Info.from_dict data = Ok info →
  int_eq (-1) (Info.websocket info) = false
  ∧ (Info.websocket info = PNone ∨ Info.websocket info = get "ws" PNone data)
  ∧ (Info.websocket info = PNone ↔
     (get "ws" PNone data = PNone ∨ get "ws" PNone data = PInt (-1))).
Proof.
  intros (s & _ & _ & ->)%info_from_dict_Ok.
  destruct (int_eq (-1) (get "ws" PNone data)) eqn:Hws.
  - apply int_eq_minus_one in Hws as ->. split_and!; [done|by left|naive_solver].
  - split_and!; [done|by right|]. split; [by left|].
    intros [?| Hminus]; [done|]. rewrite Hminus in Hws. done.
Qed.

Lemma X4_websocket_witness :
  ∃ info, Info.from_dict [("ws", PInt (-1))] = Ok info
          ∧ Info.websocket info = PNone.
Proof.
  eexists. split; [reflexivity|].
  destruct (X4_websocket_never_minus_one [("ws", PInt (-1))] _ eq_refl)
    as (_ & _ & Hnone).
  exact (proj2 Hnone (or_intror eq_refl)).
Defined.

Lemma replace_char_length old new s :
  String.length (replace_char old new s) = String.length s.
Proof. induction s; simpl; congruence. Qed.

Lemma replace_char_get old new s n :
  String.get n (replace_char old new s)
  = (fun c => if Ascii.eqb c old then new else c) <$> String.get n s.
Proof.
  revert n. induction s as [|c s IH]; intros [|n]; simpl; done.
Qed.

(** X5. The [arduino_core_version] of a decoded info is the payload's
    ["core"] (["Unknown"] when absent) with every underscore turned into
    a dot: it has the same length, holds no underscore, and agrees with
    ["core"] at every position that holds no underscore. *)
Theorem X5_core_version_underscores_to_dots data info :
  Info.from_dict data = Ok info →
  ∃ core version,
    get "core" (PStr "Unknown") data = PStr core
    ∧ Info.arduino_core_version info = PStr version
    ∧ String.length version = String.length core
    ∧ (∀ n, String.get n version ≠ Some "_"%char)
    ∧ (∀ n, String.get n core = Some "_"%char → String.get n version = Some "."%char)
    ∧ (∀ n, String.get n core ≠ Some "_"%char →
            String.get n version = String.get n core).
Proof.
  intros (core & Hcore & Hversion & _)%info_from_dict_Ok.
  exists core, (replace_char "_" "." core).
  split_and!; [done..|apply replace_char_length| | |];
    intros n; rewrite replace_char_get; destruct (String.get n core) as [c|];
    simpl; try done.
  - destruct (Ascii.eqb c "_") eqn:E; [done|].
    apply Ascii.eqb_neq in E. congruence.
  - by intros [= ->].
  - intros Hc. destruct (Ascii.eqb c "_") eqn:E; [|done].
    apply Ascii.eqb_eq in E as ->. done.
Qed.

Lemma X5_core_version_witness :
  ∃ info, Info.from_dict [("core", PStr "esp32_1_0_4")] = Ok info
          ∧ Info.arduino_core_version info = PStr "esp32.1.0.4".
Proof.
  eexists. split; [reflexivity|].
  destruct (X5_core_version_underscores_to_dots
              [("core", PStr "esp32_1_0_4")] _ eq_refl)
    as (core & version & _ & Hversion & _).
  reflexivity.
Defined.

(** ** State flags *)

(** X6. A decoded state reports [playlist_active] exactly when the payload
    has no ["pl"] key or binds it to [-1], and [preset_active] exactly when
    it has no ["ps"] key or binds it to [-1]: a payload that names neither
    gives a state with both flags true. *)
Theorem X6_flags_true_when_keys_absent data effects palettes st data' :
  State.from_dict data effects palettes = (Ok st, data') →
  (State.playlist_active st = true ↔
   (contains "pl" data = false ∨ dict_lookup "pl" data = Some (PInt (-1))))
  ∧ (State.preset_active st = true ↔
     (contains "ps" data = false ∨ dict_lookup "ps" data = Some (PInt (-1)))).
Proof.
  intros (_ & _ & _ & _ & _ & _ & _ & Hpl & Hps & _)%state_from_dict_Ok.
  unfold State.playlist_active, State.preset_active.
  rewrite Hpl, Hps, !int_eq_minus_one. unfold get, contains.
  destruct (dict_lookup "pl" data), (dict_lookup "ps" data);
    split; split; try (intros ->); try (intros [|[= ->]]); auto; done.
Qed.

Lemma X6_flags_witness :
  ∃ st data',
    State.from_dict state_payload [] [] = (Ok st, data')
    ∧ State.playlist_active st = true
    ∧ State.preset_active st = true.
Proof.
  eexists _, _. split; [reflexivity|].
  destruct (X6_flags_true_when_keys_absent state_payload [] [] _ _ eq_refl)
    as [Hpl Hps].
  exact (conj (proj2 Hpl (or_introl eq_refl)) (proj2 Hps (or_introl eq_refl))).
Defined.

(** ** Segment decode: colours and failures *)

(** X7. In a segment decode that returns, the colour in slot [i] (primary,
    secondary, tertiary for 0, 1, 2) is the tuple of entry [i] of the
    payload's ["col"] list, and the integer [0] when the list has no entry
    [i]; without a ["col"] key all three are [0]. *)
Theorem X7_color_slot_is_tuple_of_entry
    segment_id data effects palettes state_on state_brightness seg data' :
  Segment.from_dict segment_id data effects palettes state_on state_brightness
    = (Ok seg, data') →
  (∀ cs, dict_lookup "col" data = Some (PList cs) →
     slot_of cs 0 (Segment.color_primary seg)
     ∧ slot_of cs 1 (Segment.color_secondary seg)
     ∧ slot_of cs 2 (Segment.color_tertiary seg))
  ∧ (contains "col" data = false →
     Segment.color_primary seg = PInt 0
     ∧ Segment.color_secondary seg = PInt 0
     ∧ Segment.color_tertiary seg = PInt 0).
Proof.
  intros (difference & f & _ & Htry & _ & ->)%segment_from_dict_Ok. simpl. split.
  - intros cs Hcol. rewrite (get_present _ _ _ _ Hcol) in Htry.
    by apply try_colors_list in Htry as (_ & ? & ? & ?).
  - intros Hcol. rewrite (get_absent _ _ _ Hcol) in Htry.
    by apply (try_colors_list []) in Htry as (_ & ? & ? & ?).
Qed.

Lemma X7_color_slot_witness :
  ∃ seg data',
    Segment.from_dict 0 segment_four_colors [] [] (PBool true) (PInt 128)
    = (Ok seg, data')
    ∧ Segment.color_primary seg = PTuple [PInt 1; PInt 2; PInt 3]
    ∧ Segment.color_secondary seg = PTuple [PInt 4; PInt 5; PInt 6; PInt 7]
    ∧ Segment.color_tertiary seg = PTuple [PInt 8; PInt 9; PInt 10].
Proof.
  eexists _, _. split; [reflexivity|].
  destruct (X7_color_slot_is_tuple_of_entry 0 segment_four_colors [] []
              (PBool true) (PInt 128) _ _ eq_refl) as [Hslots _].
  destruct (Hslots _ eq_refl) as (H0 & H1 & H2).
  unfold slot_of in H0, H1, H2. simpl in H0, H1, H2.
  split; [|split]; reflexivity.
Defined.

Lemma try_colors_not_list c :
  is_list c = false →
  Segment.try_except_IndexError (Segment.Locals c (PInt 0) (PInt 0) (PInt 0))
  = (Raise (if is_dict c then KeyError (PInt 0) else AttributeError),
     Segment.Locals c (PInt 0) (PInt 0) (PInt 0)).
Proof. by destruct c. Qed.

(** X8. A segment decode raises instead of falling back on a default when
    a field has the wrong shape, and then leaves the payload as it was:
    [TypeError] when ["start"] or ["stop"] is no number (also when ["len"]
    is given, the difference being computed first); and, with numeric
    bounds, [KeyError(0)] when ["col"] is a mapping and [AttributeError]
    when it is anything else that is no list (null, a number, a string). *)
Theorem X8_segment_wrong_shape_raises
    segment_id data effects palettes state_on state_brightness :
  (as_int (get "start" (PInt 0) data) = None
   ∨ as_int (get "stop" (PInt 0) data) = None →
   Segment.from_dict segment_id data effects palettes state_on state_brightness
   = (Raise TypeError, data))
  ∧ (∀ c, is_Some (as_int (get "start" (PInt 0) data)) →
          is_Some (as_int (get "stop" (PInt 0) data)) →
          dict_lookup "col" data = Some c → is_list c = false →
          Segment.from_dict segment_id data effects palettes state_on state_brightness
          = (Raise (if is_dict c then KeyError (PInt 0) else AttributeError), data)).
Proof.
  unfold Segment.from_dict, py_sub. split.
  - intros [Hnone|Hnone]; rewrite Hnone;
      try destruct (as_int (get "stop" (PInt 0) data)); done.
  - intros c [start ->] [stop ->] Hcol Hc.
    rewrite (get_present _ _ _ _ Hcol), (try_colors_not_list c Hc).
    unfold contains. rewrite Hcol. simpl. by rewrite (dict_store_same _ _ _ Hcol).
Qed.

Lemma X8_segment_wrong_shape_witness :
  Segment.from_dict 0 [("start", PStr "0"); ("len", PInt 5)] [] [] (PBool true) (PInt 1)
  = (Raise TypeError, [("start", PStr "0"); ("len", PInt 5)])
  ∧ Segment.from_dict 0 [("col", PNone)] [] [] (PBool true) (PInt 1)
    = (Raise AttributeError, [("col", PNone)]).
Proof.
  split.
  - exact (proj1 (X8_segment_wrong_shape_raises 0
                    [("start", PStr "0"); ("len", PInt 5)] [] [] (PBool true) (PInt 1))
             (or_introl eq_refl)).
  - exact (proj2 (X8_segment_wrong_shape_raises 0 [("col", PNone)] [] []
                    (PBool true) (PInt 1))
             PNone (mk_is_Some _ _ eq_refl) (mk_is_Some _ _ eq_refl) eq_refl eq_refl).
Defined.

Lemma py_tuple_is_ok c t : py_tuple c = Ok t → is_ok (py_iter c) = true.
Proof. unfold py_tuple. unfold_res. by destruct (py_iter c). Qed.

Lemma try_colors_Ok_inv c f :
  Segment.try_except_IndexError (Segment.Locals c (PInt 0) (PInt 0) (PInt 0))
    = (Ok (), f) →
  ∃ cs, c = PList cs ∧ Forall (fun c => is_ok (py_iter c) = true) (take 3 cs).
Proof.
  destruct (is_list c) eqn:Hc.
  - destruct c as [| | | |cs| |]; try done. intros Htry. exists cs. split; [done|].
    apply try_colors_list in Htry as (_ & H0 & H1 & H2). unfold slot_of in *.
    destruct cs as [|c0 [|c1 [|c2 cs]]]; simpl in *;
      repeat constructor; by eapply py_tuple_is_ok.
  - rewrite (try_colors_not_list c Hc). done.
Qed.

Lemma try_colors_list_raises cs e f :
  Segment.try_except_IndexError (Segment.Locals (PList cs) (PInt 0) (PInt 0) (PInt 0))
    = (Raise e, f) →
  e = TypeError.
Proof.
  unfold Segment.try_except_IndexError, Segment.try_body, Segment.pop_tuple.
  destruct cs as [|c1 [|c2 [|c3 cs]]]; simpl;
    repeat match goal with
           | |- context [py_tuple ?c] =>
               let E := fresh "E" in
               destruct (py_tuple c) eqn:E; simpl;
               [|apply py_tuple_raises in E as ->]
           end;
    intros ?; by simplify_eq.
Qed.

Lemma forallb_Forall {A} (f : A → bool) l :
  forallb f l = true ↔ Forall (fun x => f x = true) l.
Proof. rewrite forallb_forall, Forall_forall. by setoid_rewrite list_elem_of_In. Qed.

(** X9. Take a segment payload whose ["start"] and ["stop"] are integers
    (or absent) and whose ["col"] is a list (or absent).  Its decode
    returns when the first three entries of the list are sequences,
    whatever follows them and whatever every other field holds, and raises
    [TypeError] when one of the three is not. *)
Theorem X9_segment_decodes_on_integer_bounds
    segment_id data effects palettes state_on state_brightness cs :
  is_Some (as_int (get "start" (PInt 0) data)) →
  is_Some (as_int (get "stop" (PInt 0) data)) →
  get "col" (PList []) data = PList cs →
  if forallb (fun c => is_ok (py_iter c)) (take 3 cs)
  then ∃ seg data',
         Segment.from_dict segment_id data effects palettes state_on state_brightness
         = (Ok seg, data')
  else fst (Segment.from_dict segment_id data effects palettes
              state_on state_brightness) = Raise TypeError.
Proof.
  intros Hstart Hstop Hcol.
  destruct (forallb _ (take 3 cs)) eqn:Hcs.
  - apply forallb_Forall in Hcs.
    by apply (segment_from_dict_total _ _ _ _ _ _ cs).
  - destruct Hstart as [start Hstart], Hstop as [stop Hstop].
    unfold Segment.from_dict, py_sub. rewrite Hstart, Hstop, Hcol.
    destruct (Segment.try_except_IndexError _) as [[[]|e] f] eqn:Htry; simpl.
    + apply try_colors_Ok_inv in Htry as (cs' & [= <-] & Hall).
      apply forallb_Forall in Hall. congruence.
    + by apply try_colors_list_raises in Htry as ->.
Qed.

Lemma X9_segment_decodes_witness :
  (∃ seg data',
     Segment.from_dict 0 segment_four_colors [] [] (PBool true) (PInt 128)
     = (Ok seg, data'))
  ∧ fst (Segment.from_dict 0 [("col", PList [PList [PInt 1; PInt 2; PInt 3]; PNone])]
           [] [] (PBool true) (PInt 128)) = Raise TypeError.
Proof.
  split.
  - exact (X9_segment_decodes_on_integer_bounds 0 segment_four_colors [] []
             (PBool true) (PInt 128) _
             (mk_is_Some _ _ eq_refl) (mk_is_Some _ _ eq_refl) eq_refl).
  - exact (X9_segment_decodes_on_integer_bounds 0
             [("col", PList [PList [PInt 1; PInt 2; PInt 3]; PNone])] [] []
             (PBool true) (PInt 128) _
             (mk_is_Some _ _ eq_refl) (mk_is_Some _ _ eq_refl) eq_refl).
Defined.

(** ** Looking a catalog entry up by its id *)

Lemma int_eq_as_int n v : int_eq n v = true ↔ as_int v = Some n.
Proof.
  unfold int_eq. destruct (as_int v) as [z|]; [|done].
  rewrite Z.eqb_eq. naive_solver.
Qed.

Lemma sorted_catalog_elem_of {A} (id : A → Z) (key : A → pyval) names l :
  sorted_catalog id key names l →
  ∀ z n, (∃ a, a ∈ l ∧ id a = z ∧ key a = n)
         ↔ ∃ i s, names !! i = Some s ∧ z = Z.of_nat i ∧ n = PStr s.
Proof.
  intros [Hperm _] z n.
  assert ((z, n) ∈ (fun a => (id a, key a)) <$> l
          ↔ (z, n) ∈ imap (fun i s => (Z.of_nat i, PStr s)) names) as Hin
    by (by rewrite Hperm).
  rewrite list_elem_of_fmap, list_elem_of_lookup in Hin.
  split.
  - intros (a & Ha & <- & <-).
    destruct (proj1 Hin) as [i Hi]; [by exists a|].
    rewrite list_lookup_imap in Hi.
    destruct (names !! i) as [s|] eqn:Hs; simpl in Hi; [|done].
    injection Hi as <- <-. eauto.
  - intros (i & s & Hs & -> & ->).
    destruct (proj2 Hin) as (a & [= -> ->] & Ha); [|by exists a].
    exists i. by rewrite list_lookup_imap, Hs.
Qed.

Lemma catalog_next {A} (id : A → Z) (key : A → pyval) (mk : Z → pyval → A)
    names l v dflt :
  (∀ a, mk (id a) (key a) = a) →
  sorted_catalog id key names l →
  Segment.next (fun item => int_eq (id item) v) l dflt
  = match entry_at names v with
    | Some (z, s) => mk z (PStr s)
    | None => dflt
    end.
Proof.
  intros Heta Hcatalog.
  pose proof (sorted_catalog_elem_of id key names l Hcatalog) as Hin.
  destruct (next_spec (fun item => int_eq (id item) v) l dflt)
    as [[Hfound Hid]|[Hnone ->]].
  - apply int_eq_as_int in Hid.
    destruct (proj1 (Hin _ _) (ex_intro _ _ (conj Hfound (conj eq_refl eq_refl))))
      as (i & s & Hs & Hi & Hkey).
    unfold entry_at. rewrite Hid, Hi, (proj2 (Z.leb_le 0 _)) by lia.
    rewrite Nat2Z.id, Hs. simpl. by rewrite <- Hi, <- Hkey.
  - unfold entry_at. destruct (as_int v) as [z|] eqn:Hv; [|done].
    destruct (Z.leb 0 z) eqn:Hz; [|done]. apply Z.leb_le in Hz.
    destruct (names !! Z.to_nat z) as [s|] eqn:Hs; [|done]. simpl.
    destruct (proj2 (Hin z (PStr s))) as (a & Ha & Hida & _).
    { exists (Z.to_nat z), s. split_and!; [done|lia|done]. }
    specialize (Hnone a Ha). simpl in Hnone.
    apply not_true_iff_false in Hnone. destruct Hnone.
    apply int_eq_as_int. by rewrite Hida.
Qed.

(** X10. A segment decoded against the tables that were built from the
    arrays [fx_names] and [pal_names] has, as its effect, the entry whose
    name stands at position ["fx"] of [fx_names], with that position as
    id, whatever place the sort gave the entry; and "Unknown" with id 0
    when ["fx"] is no number or lies outside the array.  Its palette
    follows ["pal"] and [pal_names] in the same way. *)
Theorem X10_segment_resolves_id_to_array_position
    segment_id data fx_names pal_names effects palettes
    state_on state_brightness seg data' :
  Device.build_effects (PList (PStr <$> fx_names)) = Ok effects →
  Device.build_palettes (PList (PStr <$> pal_names)) = Ok palettes →
  Segment.from_dict segment_id data effects palettes state_on state_brightness
    = (Ok seg, data') →
  Segment.effect seg
  = match entry_at fx_names (get "fx" (PInt 0) data) with
    | Some (z, s) => Effect.mk z (PStr s)
    | None => Effect.mk 0 (PStr "Unknown")
    end
  ∧ Segment.palette seg
    = match entry_at pal_names (get "pal" (PInt 0) data) with
      | Some (z, s) => {| Palette.palette_id := z; Palette.name := PStr s |}
      | None => {| Palette.palette_id := 0; Palette.name := PStr "Unknown" |}
      end.
Proof.
  intros Heffects Hpalettes (difference & f & _ & _ & _ & ->)%segment_from_dict_Ok.
  destruct (build_effects_names fx_names) as (effects' & Heffects' & Hfx).
  destruct (build_palettes_names pal_names) as (palettes' & Hpalettes' & Hpal).
  rewrite Heffects in Heffects'. rewrite Hpalettes in Hpalettes'.
  injection Heffects' as <-. injection Hpalettes' as <-. simpl. split.
  - apply (catalog_next Effect.effect_id Effect.name Effect.mk); [by intros []|done].
  - apply (catalog_next Palette.palette_id Palette.name
             (fun i n => {| Palette.palette_id := i; Palette.name := n |}));
      [by intros []|done].
Qed.

(** ["Solid", "Blink"] is stored as Blink, Solid; effect 0 is still
    "Solid". *)
Lemma X10_segment_resolves_witness :
  ∃ effects palettes seg data',
    Device.build_effects (PList [PStr "Solid"; PStr "Blink"]) = Ok effects
    ∧ Device.build_palettes (PList [PStr "Default"]) = Ok palettes
    ∧ Segment.from_dict 0 segment_one_color effects palettes (PBool true) (PInt 128)
      = (Ok seg, data')
    ∧ Segment.effect seg = Effect.mk 0 (PStr "Solid")
    ∧ Segment.palette seg = Palette.mk (PStr "Default") 0.
Proof.
  eexists _, _, _, _. split; [reflexivity|]. split; [reflexivity|].
  split; [reflexivity|].
  exact (X10_segment_resolves_id_to_array_position 0 segment_one_color
           ["Solid"; "Blink"] ["Default"] _ _ (PBool true) (PInt 128) _ _
           eq_refl eq_refl eq_refl).
Defined.

(** ** The order of a table depends on the names only *)

Lemma name_le_antisym a b : name_le a b → name_le b a → a = b.
Proof.
  destruct a as [| | |s| | |], b as [| | |t| | |]; simpl; try done.
  intros Hst Hts. f_equal. by apply String.leb_antisym.
Qed.

Lemma sorted_catalog_names {A} (id : A → Z) (key : A → pyval) names l :
  sorted_catalog id key names l →
  key <$> l ≡ₚ PStr <$> names ∧ StronglySorted name_le (key <$> l).
Proof.
  intros (Hperm & Hsorted & _). split.
  - apply (fmap_Permutation snd) in Hperm.
    rewrite <- list_fmap_compose, fmap_imap in Hperm.
    by rewrite <- (imap_const PStr names).
  - by apply (StronglySorted_fmap key (fun a b => name_le (key a) (key b)) name_le).
Qed.

(** X11. Two arrays that hold the same names, in whatever order, give
    tables that list the names in the same order; the ids alone tell the
    two tables apart.  This holds of effects and of palettes. *)
Theorem X11_table_order_independent_of_input_order
    (names1 names2 : list string) effects1 effects2 palettes1 palettes2 :
  names1 ≡ₚ names2 →
  Device.build_effects (PList (PStr <$> names1)) = Ok effects1 →
  Device.build_effects (PList (PStr <$> names2)) = Ok effects2 →
  Device.build_palettes (PList (PStr <$> names1)) = Ok palettes1 →
  Device.build_palettes (PList (PStr <$> names2)) = Ok palettes2 →
  Effect.name <$> effects1 = Effect.name <$> effects2
  ∧ Palette.name <$> palettes1 = Palette.name <$> palettes2.
Proof.
  intros Hnames He1 He2 Hp1 Hp2.
  destruct (build_effects_names names1) as (? & He1' & [Hperm1 Hsorted1]%sorted_catalog_names).
  destruct (build_effects_names names2) as (? & He2' & [Hperm2 Hsorted2]%sorted_catalog_names).
  destruct (build_palettes_names names1) as (? & Hp1' & [Hpperm1 Hpsorted1]%sorted_catalog_names).
  destruct (build_palettes_names names2) as (? & Hp2' & [Hpperm2 Hpsorted2]%sorted_catalog_names).
  rewrite He1 in He1'. rewrite He2 in He2'. rewrite Hp1 in Hp1'. rewrite Hp2 in Hp2'.
  simplify_eq. split.
  - apply (StronglySorted_unique_strong name_le); [|done..|].
    + intros. by apply name_le_antisym.
    + by rewrite Hperm1, Hperm2, Hnames.
  - apply (StronglySorted_unique_strong name_le); [|done..|].
    + intros. by apply name_le_antisym.
    + by rewrite Hpperm1, Hpperm2, Hnames.
Qed.

Lemma X11_table_order_witness :
  ∃ effects1 effects2,
    Device.build_effects (PList [PStr "Solid"; PStr "Blink"]) = Ok effects1
    ∧ Device.build_effects (PList [PStr "Blink"; PStr "Solid"]) = Ok effects2
    ∧ Effect.name <$> effects1 = Effect.name <$> effects2.
Proof.
  eexists _, _. split; [reflexivity|]. split; [reflexivity|].
  exact (proj1 (X11_table_order_independent_of_input_order
                  ["Solid"; "Blink"] ["Blink"; "Solid"] _ _ _ _
                  (Permutation_swap _ _ _) eq_refl eq_refl eq_refl eq_refl)).
Defined.

(** ** Exceptions that leave the module *)

Lemma py_get_sound o k dflt : sound_outcome (py_get o k dflt).
Proof. by destruct o. Qed.

Lemma bind_sound {A B} (m : res A) (k : A → res B) :
  sound_outcome m → (∀ a, sound_outcome (k a)) → sound_outcome (m ≫= k).
Proof. destruct m; unfold_res; auto. Qed.

Lemma nightlight_sound data : sound_outcome (Nightlight.from_dict data).
Proof.
  unfold Nightlight.from_dict.
  repeat (apply bind_sound; [apply py_get_sound|intros ?]). done.
Qed.

Lemma sync_sound data : sound_outcome (Sync.from_dict data).
Proof.
  unfold Sync.from_dict.
  repeat (apply bind_sound; [apply py_get_sound|intros ?]). done.
Qed.

Lemma leds_sound data : sound_outcome (Leds.from_dict data).
Proof.
  unfold Leds.from_dict.
  repeat (apply bind_sound; [apply py_get_sound|intros ?]). done.
Qed.

Lemma wifi_sound data : sound_outcome (Wifi.from_dict data).
Proof.
  unfold Wifi.from_dict. destruct (negb _); [done|].
  repeat (apply bind_sound; [apply py_get_sound|intros ?]). done.
Qed.

Lemma info_sound data : sound_outcome (Info.from_dict data).
Proof.
  unfold Info.from_dict.
  apply bind_sound; [by destruct (get "core" _ data)|intros ?].
  apply bind_sound; [apply leds_sound|intros ?].
  apply bind_sound; [apply wifi_sound|intros ?]. done.
Qed.

Lemma try_colors_sound f :
  sound_outcome (fst (Segment.try_except_IndexError f)).
Proof.
  unfold Segment.try_except_IndexError, Segment.try_body, Segment.pop_tuple.
  destruct f as [c p s t]. simpl.
  destruct c as [| | | |[|c0 [|c1 [|c2 cs]]]| |]; simpl; try done;
    repeat match goal with
           | |- context [py_tuple ?c] =>
               let E := fresh "E" in
               destruct (py_tuple c) eqn:E; simpl;
               [|apply py_tuple_raises in E as ->]
           end; done.
Qed.

Lemma segment_sound segment_id data effects palettes state_on state_brightness :
  sound_outcome (fst (Segment.from_dict segment_id data effects palettes
                        state_on state_brightness)).
Proof.
  unfold Segment.from_dict, py_sub.
  destruct (as_int (get "stop" _ _)); [|done].
  destruct (as_int (get "start" _ _)); [|done].
  pose proof (try_colors_sound
                (Segment.Locals (get "col" (PList []) data) (PInt 0) (PInt 0) (PInt 0)))
    as Htry.
  destruct (Segment.try_except_IndexError _) as [[[]|e] f]; done.
Qed.

Lemma decode_segments_sound items : ∀ segment_id effects palettes on brightness,
  sound_outcome (fst (State.decode_segments segment_id items effects palettes
                        on brightness)).
Proof.
  induction items as [|item items IH]; intros segment_id effects palettes on brightness;
    simpl; [done|].
  destruct item as [| | | | | |segment]; try done.
  pose proof (segment_sound segment_id segment effects palettes on brightness) as Hs.
  destruct (Segment.from_dict _ _ _ _ _ _) as [[s|] segment']; [|done].
  specialize (IH (segment_id + 1) effects palettes on brightness).
  destruct (State.decode_segments _ _ _ _ _ _) as [[ss|] rest]; done.
Qed.

Lemma state_sound data effects palettes :
  sound_outcome (fst (State.from_dict data effects palettes)).
Proof.
  unfold State.from_dict.
  destruct (py_iter (get "seg" _ data)) as [items|e] eqn:Hiter.
  - pose proof (decode_segments_sound items 0 effects palettes
                  (get "on" (PBool false) data) (get "bri" (PInt 1) data)) as Hd.
    destruct (State.decode_segments _ _ _ _ _ _) as [r items']. simpl in *.
    apply (bind_sound r); [done|intros ?].
    apply bind_sound; [apply nightlight_sound|intros ?].
    apply bind_sound; [apply sync_sound|intros ?]. done.
  - simpl. destruct (get "seg" (PList []) data); simpl in Hiter; by simplify_eq.
Qed.

Lemma insert_sound {A} (key : A → pyval) x l : sound_outcome (insert key x l).
Proof.
  induction l as [|y l IH]; simpl; [done|].
  apply bind_sound.
  - unfold py_lt. destruct (key y), (key x); try done; by destruct b.
  - intros []; [|done]. by apply bind_sound.
Qed.

Lemma sort_sound {A} (key : A → pyval) l : sound_outcome (sort key l).
Proof.
  induction l as [|x l IH]; simpl; [done|].
  apply bind_sound; [done|]. intros ?. apply insert_sound.
Qed.

Lemma update_sound self data :
  sound_outcome (fst (fst (Device.update_from_dict self data))).
Proof.
  assert (∀ v, sound_outcome (Device.build_effects v)) as He.
  { intros v. unfold Device.build_effects.
    apply bind_sound; [by destruct v|]. intros ?. apply sort_sound. }
  assert (∀ v, sound_outcome (Device.build_palettes v)) as Hp.
  { intros v. unfold Device.build_palettes.
    apply bind_sound; [by destruct v|]. intros ?. apply sort_sound. }
  assert (∀ v, sound_outcome (Device.decode_info v)) as Hi.
  { intros v. destruct v; try done. apply info_sound. }
  assert (∀ v e p, sound_outcome (fst (Device.decode_state v e p))) as Hs.
  { intros v e p. destruct v as [| | | | | |d]; try done. simpl.
    pose proof (state_sound d e p). by destruct (State.from_dict d e p). }
  unfold Device.update_from_dict. unfold_res.
  repeat match goal with
         | |- context [if truthy ?v then _ else _] => destruct (truthy v)
         | |- context [Device.build_effects ?v] =>
             specialize (He v); destruct (Device.build_effects v)
         | |- context [Device.build_palettes ?v] =>
             specialize (Hp v); destruct (Device.build_palettes v)
         | |- context [Device.decode_info ?v] =>
             specialize (Hi v); destruct (Device.decode_info v)
         | |- context [Device.decode_state ?v ?e ?p] =>
             specialize (Hs v e p); destruct (Device.decode_state v e p) as [[] ?]
         end; simpl in *; done.
Qed.

Lemma init_sound data : sound_outcome (fst (Device.__init__ data)).
Proof.
  unfold Device.__init__.
  pose proof (any_incomplete_outcome Device.required data) as Hguard.
  destruct (forallb _ _).
  - rewrite Hguard. pose proof (update_sound Device.new data) as Hupdate.
    destruct (Device.update_from_dict Device.new data) as [[[[]|] ?] ?]; done.
  - destruct Hguard as (k & _ & _ & ->). done.
Qed.

Lemma sound_outcome_excludes {A} (r : res A) :
  sound_outcome r → (∀ msg, r ≠ Raise (WLEDError msg)) ∧ r ≠ Raise IndexError.
Proof. destruct r as [a|[]]; simpl; intros Hsound; split; try intros ?; done. Qed.

(** X12. Constructing or updating a device never raises the module's own
    [WLEDError], and the [IndexError] of the colour pops never leaves the
    decoders: whatever the payload, neither is the outcome. *)
Theorem X12_neither_WLEDError_nor_IndexError_escapes
    (self : Device.t) (data : dict) :
  ((∀ msg, fst (Device.__init__ data) ≠ Raise (WLEDError msg))
   ∧ fst (Device.__init__ data) ≠ Raise IndexError)
  ∧ ((∀ msg, fst (fst (Device.update_from_dict self data)) ≠ Raise (WLEDError msg))
     ∧ fst (fst (Device.update_from_dict self data)) ≠ Raise IndexError).
Proof.
  split.
  - apply sound_outcome_excludes, init_sound.
  - apply sound_outcome_excludes, update_sound.
Qed.

(** ** Updates that raise *)

(** X13. An update that raises never assigns [state]: the device keeps the
    state it had.  When it is the effects array that raises, nothing at
    all has changed, neither on the device nor in the payload. *)
Theorem X13_raising_update_keeps_state self data e self' data' :
  Device.update_from_dict self data = (Raise e, self', data') →
  Device.state self' = Device.state self
  ∧ (supplied "effects" data = true →
     is_ok (Device.build_effects (get "effects" PNone data)) = false →
     self' = self ∧ data' = data).
Proof.
  unfold Device.update_from_dict, supplied. unfold_res. intros Hupdate. split.
  - repeat case_match; simplify_eq/=; done.
  - intros Hsupplied Hbuild. rewrite Hsupplied in Hupdate.
    destruct (Device.build_effects _); [done|]. by simplify_eq.
Qed.

(** The effects array [5] is no sequence: the update raises [TypeError]
    before it touches the device. *)
Lemma X13_raising_update_witness :
  ∃ dev data1 e dev' data2,
    Device.__init__ full_payload = (Ok dev, data1)
    ∧ Device.update_from_dict dev [("effects", PInt 5); ("state", PDict state_payload)]
      = (Raise e, dev', data2)
    ∧ Device.state dev' = Device.state dev.
Proof.
  eexists _, _, _, _, _. split; [reflexivity|]. split; [reflexivity|].
  match goal with
  | |- Device.state ?dev' = Device.state ?dev =>
      exact (proj1 (X13_raising_update_keeps_state dev
                      [("effects", PInt 5); ("state", PDict state_payload)]
                      TypeError dev' _ eq_refl))
  end.
Defined.

(** ** What a decode leaves of the payload *)

Lemma segment_frame k segment_id data effects palettes state_on state_brightness :
  k ≠ "col" →
  dict_lookup k (snd (Segment.from_dict segment_id data effects palettes
                        state_on state_brightness))
  = dict_lookup k data.
Proof.
  intros Hk. unfold Segment.from_dict.
  destruct (py_sub _ _); [|done].
  destruct (Segment.try_except_IndexError _) as [[[]|] f]; simpl;
    (destruct (contains "col" data); [by rewrite dict_lookup_store_ne|done]).
Qed.

Lemma state_frame k data effects palettes :
  k ≠ "seg" →
  dict_lookup k (snd (State.from_dict data effects palettes)) = dict_lookup k data.
Proof.
  intros Hk. unfold State.from_dict.
  destruct (py_iter _); [|done].
  destruct (State.decode_segments _ _ _ _ _ _) as [r items']. simpl.
  destruct (contains "seg" data); [by rewrite dict_lookup_store_ne|done].
Qed.

Lemma update_frame k self data :
  k ≠ "state" →
  dict_lookup k (snd (Device.update_from_dict self data)) = dict_lookup k data.
Proof.
  intros Hk. unfold Device.update_from_dict. unfold_res.
  repeat case_match; simplify_eq/=; try done; by rewrite dict_lookup_store_ne.
Qed.

(** X14. A decode changes the payload only along the path to the colour
    lists: a segment decode leaves every key but ["col"] bound as it was,
    a state decode every key but ["seg"], an update and a construction
    every key but ["state"] — whether they return or raise. *)
Theorem X14_decodes_change_only_the_colour_path (k : string) :
  (k ≠ "col" →
   ∀ segment_id data effects palettes state_on state_brightness,
     dict_lookup k (snd (Segment.from_dict segment_id data effects palettes
                           state_on state_brightness))
     = dict_lookup k data)
  ∧ (k ≠ "seg" →
     ∀ data effects palettes,
       dict_lookup k (snd (State.from_dict data effects palettes))
       = dict_lookup k data)
  ∧ (k ≠ "state" →
     ∀ self data,
       dict_lookup k (snd (Device.update_from_dict self data)) = dict_lookup k data
       ∧ dict_lookup k (snd (Device.__init__ data)) = dict_lookup k data).
Proof.
  split_and!.
  - intros Hk *. by apply segment_frame.
  - intros Hk *. by apply state_frame.
  - intros Hk self data. split; [by apply update_frame|].
    unfold Device.__init__. destruct (Device.any_incomplete _ _) as [[]|]; try done.
    pose proof (update_frame k Device.new data Hk) as Hframe.
    by destruct (Device.update_from_dict Device.new data) as [[r self'] data'].
Qed.

Lemma X14_colour_path_witness :
  dict_lookup "effects" (snd (Device.__init__ full_payload))
  = dict_lookup "effects" full_payload
  ∧ dict_lookup "bri" (snd (State.from_dict state_payload [] []))
    = dict_lookup "bri" state_payload.
Proof.
  split.
  - exact (proj2 (proj2 (proj2 (X14_decodes_change_only_the_colour_path "effects"))
                    ltac:(discriminate) Device.new full_payload)).
  - exact (proj1 (proj2 (X14_decodes_change_only_the_colour_path "bri"))
             ltac:(discriminate) state_payload [] []).
Defined.

(** ** State decode: failures and the colours it consumes *)

(** X15. A state decode raises [TypeError] when ["seg"] is bound to
    something that is no sequence (null, a number, a bool), and
    [AttributeError] when the first item of the ["seg"] list is no mapping;
    in both cases the payload is left as it was. *)
Theorem X15_state_wrong_shape_raises data effects palettes :
  (is_ok (py_iter (get "seg" (PList []) data)) = false →
   State.from_dict data effects palettes = (Raise TypeError, data))
  ∧ (∀ item rest,
       dict_lookup "seg" data = Some (PList (item :: rest)) →
       is_dict item = false →
       State.from_dict data effects palettes = (Raise AttributeError, data)).
Proof.
  unfold State.from_dict. split.
  - by destruct (get "seg" (PList []) data).
  - intros item rest Hseg Hitem. rewrite (get_present _ _ _ _ Hseg). simpl.
    unfold contains. rewrite Hseg.
    destruct item; try done; simpl; by rewrite (dict_store_same _ _ _ Hseg).
Qed.

Lemma X15_state_wrong_shape_witness :
  State.from_dict [("seg", PNone)] [] [] = (Raise TypeError, [("seg", PNone)])
  ∧ State.from_dict [("seg", PList [PInt 3])] [] []
    = (Raise AttributeError, [("seg", PList [PInt 3])]).
Proof.
  split.
  - exact (proj1 (X15_state_wrong_shape_raises [("seg", PNone)] [] []) eq_refl).
  - exact (proj2 (X15_state_wrong_shape_raises [("seg", PList [PInt 3])] [] [])
             (PInt 3) [] eq_refl eq_refl).
Defined.

Lemma decode_segments_items items : ∀ segment_id effects palettes on brightness ss items',
  State.decode_segments segment_id items effects palettes on brightness = (Ok ss, items') →
  length items' = length items
  ∧ ∀ i segment, items !! i = Some (PDict segment) →
      ∃ seg segment',
        items' !! i = Some (PDict segment')
        ∧ Segment.from_dict (segment_id + Z.of_nat i) segment
            effects palettes on brightness = (Ok seg, segment').
Proof.
  induction items as [|item items IH]; intros segment_id effects palettes on brightness ss items'.
  - simpl. intros [= <- <-]. split; [done|]. intros i segment. by rewrite lookup_nil.
  - simpl. destruct item as [| | | | | |d]; try done.
    destruct (Segment.from_dict _ _ _ _ _ _) as [[s|] d'] eqn:Hs; [|done].
    destruct (State.decode_segments _ _ _ _ _ _) as [[ss'|] rest] eqn:Hrest;
      unfold_res; [|done].
    intros [= <- <-]. apply IH in Hrest as [Hlen Hrest]. split; [by simpl; f_equal|].
    intros [|i] segment; simpl.
    + intros [= <-]. exists s, d'. by rewrite Z.add_0_r.
    + intros (sg & sg' & ? & Hd)%Hrest. exists sg, sg'. split; [done|].
      rewrite <- Hd. f_equal. lia.
Qed.

(** X16. A state decode that returns has taken the colours it read out of
    the caller's payload: the ["seg"] list keeps its length, and every
    segment mapping whose ["col"] was the list [cs] now has ["col"] bound
    to [cs] without its first three entries. *)
Theorem X16_state_decode_consumes_segment_colors
    data effects palettes st data' items :
  State.from_dict data effects palettes = (Ok st, data') →
  dict_lookup "seg" data = Some (PList items) →
  ∃ items',
    dict_lookup "seg" data' = Some (PList items')
    ∧ length items' = length items
    ∧ ∀ i segment cs,
        items !! i = Some (PDict segment) →
        dict_lookup "col" segment = Some (PList cs) →
        ∃ segment',
          items' !! i = Some (PDict segment')
          ∧ dict_lookup "col" segment' = Some (PList (drop 3 cs)).
Proof.
  intros (items0 & items' & Hiter & Hdec & -> & _)%state_from_dict_Ok Hseg.
  rewrite (get_present _ _ _ _ Hseg) in *. injection Hiter as <-.
  unfold contains. rewrite Hseg. simpl. exists items'.
  apply decode_segments_items in Hdec as [Hlen Hitems].
  split_and!; [apply dict_lookup_store_eq|done|].
  intros i segment cs (seg & segment' & Hi & Hsegment)%Hitems Hcol.
  exists segment'. split; [done|].
  apply segment_from_dict_Ok in Hsegment as (difference & f & _ & Htry & -> & _).
  rewrite (get_present _ _ _ _ Hcol) in Htry.
  apply try_colors_list in Htry as [-> _].
  unfold contains. rewrite Hcol. apply dict_lookup_store_eq.
Qed.

(** The state of the scenario: after the decode the payload's segment has
    no colour left. *)
Lemma X16_state_decode_consumes_witness :
  ∃ st data' segment',
    State.from_dict state_payload [] [] = (Ok st, data')
    ∧ dict_lookup "seg" data' = Some (PList [PDict segment'])
    ∧ dict_lookup "col" segment' = Some (PList []).
Proof.
  destruct (X16_state_decode_consumes_segment_colors state_payload [] [] _ _
              [PDict segment_one_color] eq_refl eq_refl)
    as (items' & Hseg & Hlen & Hitems).
  destruct (Hitems 0%nat segment_one_color [PList [PInt 255; PInt 0; PInt 0]]
              eq_refl eq_refl) as (segment' & Hi & Hcol).
  eexists _, _, segment'. split; [reflexivity|].
  destruct items' as [|item [|? ?]]; try discriminate Hlen.
  injection Hi as ->. exact (conj Hseg Hcol).
Defined.
